(** * git-for-each: the status engine of [src/utils/git.ts]

    A shallow embedding of the repository detector, the four field
    extractors and the status aggregator, followed by the properties of
    the specification that concern them.

    Conventions of the embedding.
    - A JavaScript string is a [string]; one character stands for one
      UTF-16 code unit below 256, so [String.length] is [.length].
    - A JavaScript number that the code builds is the result of [Number]
      on a captured run of decimal digits, on [undefined], or the literal
      [0]: it is [NaN] or the number value of a natural number [n],
      written [Num n].  The rounding of [n] to binary64 above 2^53 is not
      represented; no statement below depends on it.
    - An [async] function is a computation in [Async]: the external
      requests it issues, in the order they are issued, and whether its
      promise is fulfilled or rejected. *)

From Stdlib Require Import String Ascii List Bool NArith Arith Lia.
Import ListNotations.
Open Scope string_scope.
Open Scope list_scope.

Set Implicit Arguments.

(** ** Promises *)

(** What an [async] function asks of the outside world. *)
Inductive Event : Type :=
| Exec (command : string)      (* a command line handed to [cmd] *)
| ReadDir (path : string).     (* a directory listed by [getDirectories] *)

Inductive outcome (A : Type) : Type :=
| Resolved (a : A)
| Rejected (error : string).

Arguments Resolved {A} a.
Arguments Rejected {A} error.

Definition Async (A : Type) : Type := (list Event * outcome A)%type.

Definition result {A} (m : Async A) : outcome A := snd m.

Definition ret {A} (a : A) : Async A := ([], Resolved a).

(** [await m] followed by the rest of the function body. *)
Definition bind {A B} (m : Async A) (k : A -> Async B) : Async B :=
  match m with
  | (t, Resolved a) => let (t', o) := k a in (t ++ t', o)
  | (t, Rejected e) => (t, Rejected e)
  end.

(** [try { m } catch (error) { h error }]. *)
Definition try_catch {A} (m : Async A) (h : string -> Async A) : Async A :=
  match m with
  | (t, Resolved a) => (t, Resolved a)
  | (t, Rejected e) => let (t', o) := h e in (t ++ t', o)
  end.

Notation "x <- m ;; k" := (bind m (fun x => k))
  (at level 61, m at next level, right associativity).

(** Two promises that are both already running: every request of both is
    issued, and the pair is rejected as soon as one of them is (with the
    reason of the first one in the array when both are). *)
Definition both {A B} (a : Async A) (b : Async B) : Async (A * B) :=
  let (ta, oa) := a in
  let (tb, ob) := b in
  (ta ++ tb,
   match oa, ob with
   | Resolved x, Resolved y => Resolved (x, y)
   | Rejected e, _ => Rejected e
   | Resolved _, Rejected e => Rejected e
   end).

(** [Promise.all] on an array of promises of one type. *)
Fixpoint Promise_all {A} (ps : list (Async A)) : Async (list A) :=
  match ps with
  | [] => ret []
  | p :: ps' =>
      let (t, o) := both p (Promise_all ps') in
      (t, match o with
          | Resolved (x, l) => Resolved (x :: l)
          | Rejected e => Rejected e
          end)
  end.

(** [Promise.all] on the four-element tuple of [getGitStatusInfo]. *)
Definition Promise_all4 {A B C D}
    (a : Async A) (b : Async B) (c : Async C) (d : Async D)
  : Async (A * B * C * D) :=
  let (t, o) := both a (both b (both c d)) in
  (t, match o with
      | Resolved (x, (y, (z, w))) => Resolved (x, y, z, w)
      | Rejected e => Rejected e
      end).

(** ** JavaScript values that the code handles *)

Inductive number : Type :=
| NaN
| Num (n : N).

Definition LF : string := String (ascii_of_nat 10) "".
Definition TAB : string := String (ascii_of_nat 9) "".

(** The characters of [\d]. *)
Definition is_digit (c : ascii) : bool :=
  let n := nat_of_ascii c in (48 <=? n)%nat && (n <=? 57)%nat.

(** White space of [\s] and of [String.prototype.trim] among the code
    units below 256: TAB, LF, VT, FF, CR, SP and NBSP. *)
Definition is_space (c : ascii) : bool :=
  let n := nat_of_ascii c in
  ((9 <=? n)%nat && (n <=? 13)%nat) || (n =? 32)%nat || (n =? 160)%nat.

Fixpoint digits_value (acc : N) (s : string) : option N :=
  match s with
  | EmptyString => Some acc
  | String c s' =>
      if is_digit c
      then digits_value (10 * acc + N.of_nat (nat_of_ascii c - 48)) s'
      else None
  end.

(** [Number(s)] for a string: the code only ever applies it to what
    [\d*] or [\d+] captured, a possibly empty run of decimal digits (the
    empty string converts to 0).  Other text is outside this fragment
    and is given [NaN]; [getModifiedCounts_numbers] and
    [getAheadBehindCount_numbers] below show that the module never
    leaves the fragment. *)
Definition Number_of_string (s : string) : number :=
  match digits_value 0 s with
  | Some n => Num n
  | None => NaN
  end.

(** [Number(x)] where [x] is a string or [undefined]. *)
Definition Number_of_capture (x : option string) : number :=
  match x with
  | Some s => Number_of_string s
  | None => NaN
  end.

(** Truthiness of a string, a number, and a number-or-null. *)
Definition truthy_string (s : string) : bool :=
  match s with EmptyString => false | _ => true end.

Definition Boolean_number (x : number) : bool :=
  match x with
  | NaN => false
  | Num n => negb (n =? 0)%N
  end.

Definition Boolean_nullable (x : option number) : bool :=
  match x with
  | None => false
  | Some v => Boolean_number v
  end.

(** [a || b] on two number-or-null operands. *)
Definition or_nullable (a b : option number) : option number :=
  if Boolean_nullable a then a else b.

(** [a || b] where [a] is a boolean or [undefined] and [b] a boolean. *)
Definition or_flag (a : option bool) (b : bool) : bool :=
  match a with
  | Some true => true
  | _ => b
  end.

(** [x > 0] on a number; false on [NaN]. *)
Definition gt_zero (x : number) : bool :=
  match x with
  | NaN => false
  | Num n => (0 <? n)%N
  end.

(** ** Regular expressions

    The fragment of JavaScript regular expressions that the four patterns
    of the module use: literal text, the classes [\d] and [\s], the greedy
    quantifiers [*] and [+] on a class, concatenation and numbered capture
    groups.  Matching is the backtracking search of [RegExp.prototype.exec]
    without flags: leftmost start, greedy quantifiers giving back one
    character at a time. *)

Inductive cclass : Type :=
| Digit       (* \d *)
| Space.      (* \s *)

Definition in_class (c : cclass) (a : ascii) : bool :=
  match c with
  | Digit => is_digit a
  | Space => is_space a
  end.

Inductive regex : Type :=
| Text (t : string)               (* literal characters *)
| Star (c : cclass)               (* c* *)
| Plus (c : cclass)               (* c+ *)
| Cat (r1 r2 : regex)             (* r1 r2 *)
| Group (i : nat) (r : regex).    (* the i-th parenthesis *)

Definition captures : Type := list (nat * string).

Fixpoint strip_prefix (p s : string) : option string :=
  match p, s with
  | EmptyString, _ => Some s
  | String a p', String b s' =>
      if Ascii.eqb a b then strip_prefix p' s' else None
  | String _ _, EmptyString => None
  end.

(** What was consumed between the input [s] and its suffix [rest]. *)
Definition consumed (s rest : string) : string :=
  substring 0 (String.length s - String.length rest) s.

(** [c*] in front of the continuation [k]: the longest run first, then
    shorter ones while [k] fails. *)
Fixpoint star_greedy {R} (c : cclass) (s : string)
    (k : string -> option R) : option R :=
  match s with
  | String a s' =>
      if in_class c a
      then match star_greedy c s' k with
           | Some r => Some r
           | None => k s
           end
      else k s
  | EmptyString => k s
  end.

Fixpoint exec_at {R} (r : regex) (s : string) (caps : captures)
    (k : string -> captures -> option R) : option R :=
  match r with
  | Text t =>
      match strip_prefix t s with
      | Some s' => k s' caps
      | None => None
      end
  | Star c => star_greedy c s (fun s' => k s' caps)
  | Plus c =>
      match s with
      | String a s' =>
          if in_class c a
          then star_greedy c s' (fun s'' => k s'' caps)
          else None
      | EmptyString => None
      end
  | Cat r1 r2 =>
      exec_at r1 s caps (fun s' caps' => exec_at r2 s' caps' k)
  | Group i r1 =>
      exec_at r1 s caps
        (fun s' caps' => k s' ((i, consumed s s') :: caps'))
  end.

(** The match that starts exactly at the head of [s]: the matched text
    and the captures. *)
Definition match_here (r : regex) (s : string) : option (string * captures) :=
  exec_at r s [] (fun rest caps => Some (consumed s rest, caps)).

(** The leftmost match in [s]. *)
Fixpoint search (r : regex) (s : string) : option (string * captures) :=
  match match_here r s with
  | Some m => Some m
  | None =>
      match s with
      | String _ s' => search r s'
      | EmptyString => None
      end
  end.

Fixpoint group_count (r : regex) : nat :=
  match r with
  | Text _ | Star _ | Plus _ => 0
  | Cat r1 r2 => Nat.max (group_count r1) (group_count r2)
  | Group i r1 => Nat.max i (group_count r1)
  end.

Fixpoint capture (i : nat) (caps : captures) : option string :=
  match caps with
  | [] => None
  | (j, g) :: caps' => if (i =? j)%nat then Some g else capture i caps'
  end.

(** [s.match(r)] for a pattern without the [g] flag: [null], or the array
    of the matched text followed by the groups, a group that took no part
    being [undefined]. *)
Definition js_match (s : string) (r : regex) : option (list (option string)) :=
  match search r s with
  | Some (whole, caps) =>
      Some (Some whole :: map (fun i => capture i caps) (seq 1 (group_count r)))
  | None => None
  end.

(** [m?.[i]] on the result of [match]. *)
Definition opt_index (m : option (list (option string))) (i : nat)
  : option string :=
  match m with
  | Some arr => nth i arr None
  | None => None
  end.

(** [x || 0] where [x] is a string or [undefined]. *)
Definition or_zero (x : option string) : string + number :=
  match x with
  | Some g => if truthy_string g then inl g else inr (Num 0)
  | None => inr (Num 0)
  end.

(** [Number(v)] where [v] is a string or already a number. *)
Definition Number_ (v : string + number) : number :=
  match v with
  | inl g => Number_of_string g
  | inr n => n
  end.

(** The patterns of [getModifiedCounts] and [getAheadBehindCount]. *)
Definition re_files : regex := Cat (Group 1 (Plus Digit)) (Text " files").
Definition re_insertions : regex := Cat (Group 1 (Plus Digit)) (Text " insertions").
Definition re_deletions : regex := Cat (Group 1 (Plus Digit)) (Text " deletions").
Definition re_ahead_behind : regex :=
  Cat (Group 1 (Star Digit)) (Cat (Star Space) (Group 2 (Star Digit))).

(** [s.replace(pat, rep)] for a string pattern [pat]: the first
    occurrence of [pat] gives way to [rep], the rest of [s] is kept.  The
    module only calls it with the empty replacement, which has no [$]
    sequence to expand. *)
Fixpoint replace_first (pat rep s : string) : string :=
  match strip_prefix pat s with
  | Some rest => (rep ++ rest)%string
  | None =>
      match s with
      | String a s' => String a (replace_first pat rep s')
      | EmptyString => EmptyString
      end
  end.

(** ** The models of [../models] *)

(** [tooManyChanges] is optional: the success path of [getGitShortStatus]
    builds the object without it. *)
Record IShortStatusInfo : Type := {
  info_status : string;
  info_tooManyChanges : option bool
}.

Record IModifiedCount : Type := {
  files : number;
  insertions : number;
  deletions : number
}.

(** [None] is [null]. *)
Record IDiffCommitCount : Type := {
  ahead : option number;
  behind : option number
}.

Record IGitStatus : Type := {
  name : string;
  path : string;
  status : string;
  branch : string;
  diffCommitCount : IDiffCommitCount;
  modifiedCount : IModifiedCount;
  isDirty : bool;
  hasUnsavedChanges : bool;
  tooManyChanges : bool;
  hasUnmergedCommits : bool;
  hasUnsyncedCommits : bool
}.

(** ** The helpers imported from ["."]

    [cmd], [getDirectories], [getDirectoryName], [trimNewLines] and
    [trimWhitespace] are not part of [git.ts]; the module is verified for
    every behaviour they may have.  [run] is what [cmd] answers to a
    command line and [listing] what [getDirectories] answers to a path;
    [lines] is how the text of a command becomes the array that
    [getModifiedCounts] destructures. *)
Record Utils : Type := {
  run : string -> outcome string;
  listing : string -> outcome (list string);
  lines : string -> list string;
  getDirectoryName : string -> string;
  trimNewLines : string -> string;
  trimWhitespace : string -> string
}.

Notation "' pat <- m ;; k" :=
  (bind m (fun x => match x with pat => k end))
  (at level 61, pat pattern, m at next level, right associativity).

Section Git.

Variable u : Utils.

Definition cmd (command : string) : Async string :=
  ([Exec command], run u command).

Definition getDirectories (p : string) : Async (list string) :=
  ([ReadDir p], listing u p).

(** Modelled from the spec: [tryCmd] is imported from ["."] and is not
    under src/.  §4.1: "A variant tryRun(command) swallows the error and
    returns an empty result instead of propagating".  The caller
    destructures the first line out of what it returns. *)
Definition tryCmd (command : string) : Async (list string) :=
  try_catch
    (resp <- cmd command ;; ret (lines u resp))
    (fun _ => ret []).

(** Modelled from the spec: [filterAsync] is imported from ["."] and is
    not under src/.  §4.2: "filters them concurrently (all checks issued
    in parallel, result order preserving input order) keeping only those
    for which [the predicate] is true". *)
Definition filterAsync {A} (arr : list A) (predicate : A -> Async bool)
  : Async (list A) :=
  keep <- Promise_all (map predicate arr) ;;
  ret (map fst (filter snd (combine arr keep))).

Definition getGitShortStatus (path : string) : Async IShortStatusInfo :=
  try_catch
    (resp <- cmd ("git -C " ++ path ++ " status -s")%string ;;
     ret {| info_status := trimNewLines u resp;
            info_tooManyChanges := None |})
    (fun error =>
     ret {| info_status := ""; info_tooManyChanges := Some true |}).

Definition getCurrentBranch (path : string) : Async string :=
  resp <- cmd ("git -C " ++ path ++ " branch --show-current")%string ;;
  ret (let t := trimWhitespace u resp in
       if truthy_string t then t else "Detached Head").

Definition getModifiedCounts (path : string) : Async IModifiedCount :=
  l <- tryCmd ("git -C " ++ path ++ " diff --shortstat")%string ;;
  match hd_error l with
  | Some stats =>
      if negb (truthy_string stats)
      then ret {| files := Num 0; insertions := Num 0; deletions := Num 0 |}
      else
        let files := Number_ (or_zero (opt_index (js_match stats re_files) 1)) in
        let insertions :=
          Number_ (or_zero (opt_index (js_match stats re_insertions) 1)) in
        let deletions :=
          Number_ (or_zero (opt_index (js_match stats re_deletions) 1)) in
        ret {| files := files; insertions := insertions; deletions := deletions |}
  | None =>
      ret {| files := Num 0; insertions := Num 0; deletions := Num 0 |}
  end.

(** [branch || 'HEAD'] for an optional argument. *)
Definition or_HEAD (branch : option string) : string :=
  match branch with
  | Some b => if truthy_string b then b else "HEAD"
  | None => "HEAD"
  end.

Definition getAheadBehindCount (path : string) (branch : option string)
  : Async IDiffCommitCount :=
  try_catch
    (resp <- cmd ("git -C " ++ path ++ " rev-list --count --left-right "
                  ++ or_HEAD branch ++ "...@{upstream}")%string ;;
     let matches := js_match resp re_ahead_behind in
     let arr := match matches with Some a => a | None => [] end in
     let ahead := nth 1 arr None in
     let behind := nth 2 arr None in
     ret {| ahead := Some (Number_of_capture ahead);
            behind := Some (Number_of_capture behind) |})
    (fun error => ret {| ahead := None; behind := None |}).

Definition getRemoteDefaultBranchName (path : string) : Async string :=
  try_catch
    (resp <- cmd ("git -C " ++ path ++ " rev-parse --abbrev-ref origin/HEAD")%string ;;
     let branch := replace_first "origin/" "" (trimWhitespace u resp) in
     ret branch)
    (fun error => ret "").

Definition getLocalDefaultBranchName (path : string) : Async string :=
  try_catch
    (resp <- cmd ("git -C " ++ path ++ " config --get init.defaultBranch")%string ;;
     let branch := trimWhitespace u resp in
     ret branch)
    (fun error => ret "").

Definition isGitDirectory (path : string) : Async bool :=
  try_catch
    (resp <- cmd ("git -C " ++ path ++ " rev-parse --is-inside-work-tree")%string ;;
     ret (String.eqb (trimWhitespace u resp) "true"))
    (fun error => ret false).

Definition getGitDirectories (path : string) : Async (list string) :=
  git <- isGitDirectory path ;;
  if git then ret [path]
  else
    dirs <- getDirectories path ;;
    gitDirs <- filterAsync dirs isGitDirectory ;;
    ret gitDirs.

Definition getGitStatusInfo (path : string) : Async IGitStatus :=
  let name := getDirectoryName u path in
  '(branch, statusInfo, diffCommitCount, modifiedCount) <-
    Promise_all4 (getCurrentBranch path)
                 (getGitShortStatus path)
                 (getAheadBehindCount path None)
                 (getModifiedCounts path) ;;
  let status := info_status statusInfo in
  let tooManyChanges := info_tooManyChanges statusInfo in
  let isDirty := Boolean_number (files modifiedCount) in
  let hasUnmergedCommits := Boolean_nullable (ahead diffCommitCount) in
  let hasUnsyncedCommits :=
    Boolean_nullable (or_nullable (ahead diffCommitCount) (behind diffCommitCount)) in
  let hasUnsavedChanges := isDirty || hasUnmergedCommits in
  ret {| name := name;
         path := path;
         status := status;
         branch := branch;
         diffCommitCount := diffCommitCount;
         modifiedCount := modifiedCount;
         isDirty := isDirty;
         hasUnsavedChanges := hasUnsavedChanges;
         tooManyChanges := or_flag tooManyChanges (1000 <? String.length status)%nat;
         hasUnmergedCommits := hasUnmergedCommits;
         hasUnsyncedCommits := hasUnsyncedCommits |}.

End Git.

(** ** Vocabulary of the specification *)

(** "is present and > 0" *)
Definition present_and_positive (x : option number) : bool :=
  match x with
  | Some v => gt_zero v
  | None => false
  end.

Definition is_rejected {A} (o : outcome A) : bool :=
  match o with
  | Rejected _ => true
  | Resolved _ => false
  end.

(** [occurs t s]: the text [t] appears somewhere in [s]. *)
Fixpoint occurs (t s : string) : bool :=
  match strip_prefix t s with
  | Some _ => true
  | None =>
      match s with
      | String _ s' => occurs t s'
      | EmptyString => false
      end
  end.

(** [every P s]: all the characters of [s] satisfy [P]. *)
Fixpoint every (P : ascii -> bool) (s : string) : bool :=
  match s with
  | EmptyString => true
  | String a s' => P a && every P s'
  end.

Definition no_digit (s : string) : bool :=
  every (fun a => negb (is_digit a)) s.

(** A non-empty run of decimal digits. *)
Definition is_number (s : string) : bool :=
  truthy_string s && every is_digit s.

(** The command lines of the module. *)
Definition status_command (path : string) : string :=
  ("git -C " ++ path ++ " status -s")%string.
Definition branch_command (path : string) : string :=
  ("git -C " ++ path ++ " branch --show-current")%string.
Definition diff_command (path : string) : string :=
  ("git -C " ++ path ++ " diff --shortstat")%string.
Definition revlist_command (path : string) (branch : option string) : string :=
  ("git -C " ++ path ++ " rev-list --count --left-right "
   ++ or_HEAD branch ++ "...@{upstream}")%string.
Definition worktree_command (path : string) : string :=
  ("git -C " ++ path ++ " rev-parse --is-inside-work-tree")%string.

Definition remote_head_command (path : string) : string :=
  ("git -C " ++ path ++ " rev-parse --abbrev-ref origin/HEAD")%string.
Definition default_branch_command (path : string) : string :=
  ("git -C " ++ path ++ " config --get init.defaultBranch")%string.

(** What [isGitDirectory] answers, as a plain boolean. *)
Definition is_working_tree (u : Utils) (path : string) : bool :=
  match result (isGitDirectory u path) with
  | Resolved b => b
  | Rejected _ => false
  end.

(** ** Derived notions used in the statements *)

Definition no_changes : IModifiedCount :=
  {| files := Num 0; insertions := Num 0; deletions := Num 0 |}.

Definition in_sync : IDiffCommitCount :=
  {| ahead := Some (Num 0); behind := Some (Num 0) |}.

(** What [getModifiedCounts] makes of the array of [tryCmd]. *)
Definition counts_of (l : list string) : IModifiedCount :=
  match hd_error l with
  | Some stats =>
      if negb (truthy_string stats)
      then {| files := Num 0; insertions := Num 0; deletions := Num 0 |}
      else
        {| files := Number_ (or_zero (opt_index (js_match stats re_files) 1));
           insertions :=
             Number_ (or_zero (opt_index (js_match stats re_insertions) 1));
           deletions :=
             Number_ (or_zero (opt_index (js_match stats re_deletions) 1)) |}
  | None => {| files := Num 0; insertions := Num 0; deletions := Num 0 |}
  end.

(** The digits that a pattern captured in its first group, if it matched. *)
Definition clause (r : regex) (stats : string) : option string :=
  opt_index (js_match stats r) 1.

Definition clause_or_zero (r : regex) (stats : string) : number :=
  match clause r stats with
  | Some g => Number_of_string g
  | None => Num 0
  end.

(** The summary line of git with its three clauses in the singular,
    whatever the digits and the leading white space. *)
Definition singular_line (lead f i d : string) : string :=
  (lead ++ f ++ " file changed, " ++ i ++ " insertion(+), "
   ++ d ++ " deletion(-)")%string.

Definition four_requests (dir : string) : list Event :=
  [ Exec (branch_command dir);
    Exec (status_command dir);
    Exec (revlist_command dir None);
    Exec (diff_command dir) ].

Definition worktree_requests (dirs : list string) : list Event :=
  map (fun d => Exec (worktree_command d)) dirs.

(** The aggregate that [getGitStatusInfo] builds out of the four answers. *)
Definition assemble (u : Utils) (dir : string) (b : string) (s : IShortStatusInfo)
    (d : IDiffCommitCount) (m : IModifiedCount) : IGitStatus :=
  {| name := getDirectoryName u dir;
     path := dir;
     status := info_status s;
     branch := b;
     diffCommitCount := d;
     modifiedCount := m;
     isDirty := Boolean_number (files m);
     hasUnsavedChanges :=
       Boolean_number (files m) || Boolean_nullable (ahead d);
     tooManyChanges :=
       or_flag (info_tooManyChanges s) (1000 <? String.length (info_status s))%nat;
     hasUnmergedCommits := Boolean_nullable (ahead d);
     hasUnsyncedCommits := Boolean_nullable (or_nullable (ahead d) (behind d)) |}.

(** The record of a working tree on which nothing but the branch query
    answers. *)
Definition default_record (u : Utils) (dir b : string) : IGitStatus :=
  {| name := getDirectoryName u dir;
     path := dir;
     status := "";
     branch := b;
     diffCommitCount := {| ahead := None; behind := None |};
     modifiedCount := {| files := Num 0; insertions := Num 0; deletions := Num 0 |};
     isDirty := false;
     hasUnsavedChanges := false;
     tooManyChanges := true;
     hasUnmergedCommits := false;
     hasUnsyncedCommits := false |}.

(** The shape of the three patterns of [getModifiedCounts]: [(\d+)]
    followed by a word. *)
Definition counted (t : string) : regex := Cat (Group 1 (Plus Digit)) (Text t).

(** [s] is empty or begins with a character outside the class. *)
Definition starts_outside (c : cclass) (s : string) : Prop :=
  match s with
  | String a _ => in_class c a = false
  | EmptyString => True
  end.

(** The summary line of git with all three clauses in the plural, and
    the one of a diff that only deletes. *)
Definition summary_both (lead f i d : string) : string :=
  (lead ++ f ++ " files changed, " ++ i ++ " insertions(+), "
   ++ d ++ " deletions(-)")%string.

Definition summary_deletions (lead f d : string) : string :=
  (lead ++ f ++ " files changed, " ++ d ++ " deletions(-)")%string.

Definition not_NaN (x : number) : bool :=
  match x with
  | Num _ => true
  | NaN => false
  end.

Definition number_or_absent (x : option number) : bool :=
  match x with
  | Some v => not_NaN v
  | None => true
  end.

(** The data model of section 3 read on one record: the name is the
    directory name of the path, the counts are numbers, [ahead] and
    [behind] are numbers or absent, the four flags are derived from
    them, and a status longer than 1000 characters is flagged. *)
Definition well_formed (u : Utils) (r : IGitStatus) : bool :=
  String.eqb (name r) (getDirectoryName u (path r))
  && not_NaN (files (modifiedCount r))
  && not_NaN (insertions (modifiedCount r))
  && not_NaN (deletions (modifiedCount r))
  && number_or_absent (ahead (diffCommitCount r))
  && number_or_absent (behind (diffCommitCount r))
  && Bool.eqb (isDirty r) (gt_zero (files (modifiedCount r)))
  && Bool.eqb (hasUnmergedCommits r)
       (present_and_positive (ahead (diffCommitCount r)))
  && Bool.eqb (hasUnsyncedCommits r)
       (hasUnmergedCommits r
        || present_and_positive (behind (diffCommitCount r)))
  && Bool.eqb (hasUnsavedChanges r) (isDirty r || hasUnmergedCommits r)
  && implb (1000 <? String.length (status r))%nat (tooManyChanges r).

(** The summary line of git for one changed file with several lines
    added and removed: "file" in the singular, the two other clauses in
    the plural. *)
Definition summary_one_file (lead f i d : string) : string :=
  (lead ++ f ++ " file changed, " ++ i ++ " insertions(+), "
   ++ d ++ " deletions(-)")%string.

(** Two environments in which the four queries of [getGitStatusInfo] on
    [dir] have the same outcome and the pure helpers are the same. *)
Definition same_queries (u u' : Utils) (dir : string) : Prop :=
  run u (branch_command dir) = run u' (branch_command dir) /\
  run u (status_command dir) = run u' (status_command dir) /\
  run u (revlist_command dir None) = run u' (revlist_command dir None) /\
  run u (diff_command dir) = run u' (diff_command dir) /\
  (forall s, lines u s = lines u' s) /\
  (forall s, trimNewLines u s = trimNewLines u' s) /\
  (forall s, trimWhitespace u s = trimWhitespace u' s) /\
  getDirectoryName u dir = getDirectoryName u' dir.

(** ** A sample environment

    Helpers in the sense of the specification and a machine on which a
    few commands answer, used to run the module on concrete inputs. *)
Module Sample.

Fixpoint trim_start (drop : ascii -> bool) (s : string) : string :=
  match s with
  | String a s' => if drop a then trim_start drop s' else s
  | EmptyString => EmptyString
  end.

Fixpoint trim_end (drop : ascii -> bool) (s : string) : string :=
  match s with
  | String a s' =>
      match trim_end drop s' with
      | EmptyString => if drop a then EmptyString else String a EmptyString
      | t => String a t
      end
  | EmptyString => EmptyString
  end.

(** [s.trim()]. *)
Definition trim (s : string) : string :=
  trim_end is_space (trim_start is_space s).

Definition is_newline (a : ascii) : bool :=
  (nat_of_ascii a =? 10)%nat || (nat_of_ascii a =? 13)%nat.

(** The text without the line breaks at its two ends. *)
Definition trim_newlines (s : string) : string :=
  trim_end is_newline (trim_start is_newline s).

(** The text after the last ["/"]. *)
Fixpoint leaf (acc s : string) : string :=
  match s with
  | String a s' =>
      if Ascii.eqb a "/" then leaf "" s' else leaf (acc ++ String a "")%string s'
  | EmptyString => acc
  end.

(** The non-empty lines of a text. *)
Fixpoint split_lines (acc s : string) : list string :=
  match s with
  | String a s' =>
      if Ascii.eqb a (ascii_of_nat 10)
      then (if truthy_string acc then [acc] else []) ++ split_lines "" s'
      else split_lines (acc ++ String a "")%string s'
  | EmptyString => if truthy_string acc then [acc] else []
  end.

Fixpoint lookup {A} (k : string) (table : list (string * A)) : option A :=
  match table with
  | [] => None
  | (k', v) :: table' => if String.eqb k k' then Some v else lookup k table'
  end.

(** A machine: the commands that succeed with their output, and the
    directories that can be listed; everything else fails. *)
Definition machine (commands : list (string * string))
    (dirs : list (string * list string)) : Utils :=
  {| run := fun c =>
       match lookup c commands with
       | Some out => Resolved out
       | None => Rejected "Command failed"
       end;
     listing := fun p =>
       match lookup p dirs with
       | Some l => Resolved l
       | None => Rejected "ENOENT"
       end;
     lines := split_lines "";
     getDirectoryName := leaf "";
     trimNewLines := trim_newlines;
     trimWhitespace := trim |}.

(** A clean-looking clone with one edited file, two local commits and
    one commit to pull. *)
Definition app : Utils :=
  machine
    [ (branch_command "/work/app", "main" ++ LF);
      (status_command "/work/app", " M README.md" ++ LF);
      (revlist_command "/work/app" None, "2" ++ TAB ++ "1" ++ LF);
      (diff_command "/work/app",
       " 1 file changed, 1 insertion(+), 1 deletion(-)" ++ LF);
      (worktree_command "/work/app", "true" ++ LF) ]%string
    [].

(** A folder that is not a working tree and holds three folders, two
    of which are. *)
Definition folder : Utils :=
  machine
    [ (worktree_command "/work/a", "true" ++ LF);
      (worktree_command "/work/c", "true" ++ LF) ]%string
    [ ("/work", ["/work/a"; "/work/b"; "/work/c"]) ].

(** A working tree on which only the branch query answers. *)
Definition bare : Utils :=
  machine [ (branch_command "/work/new", LF) ] [].

(** A working tree on which every query but the branch query answers. *)
Definition old_git : Utils :=
  machine
    [ (worktree_command "/work/app", "true" ++ LF);
      (status_command "/work/app", "");
      (revlist_command "/work/app" None, "0" ++ TAB ++ "0" ++ LF);
      (diff_command "/work/app", "") ]%string
    [].

(** A working tree whose diff summary is the given line. *)
Definition with_summary (line : string) : Utils :=
  machine
    [ (branch_command "/work/app", "main" ++ LF);
      (diff_command "/work/app", line ++ LF) ]%string
    [].

(** A working tree whose short status answers 1001 characters. *)
Fixpoint repeat_char (n : nat) (a : ascii) : string :=
  match n with
  | O => EmptyString
  | S n' => String a (repeat_char n' a)
  end.

Definition noisy : Utils :=
  machine
    [ (branch_command "/work/app", "main" ++ LF);
      (status_command "/work/app", repeat_char 1001 "M") ]%string
    [].

(** A working tree whose ahead/behind query answers the given text. *)
Definition with_counts (resp : string) : Utils :=
  machine [ (revlist_command "/work/app" None, resp) ] [].

(** A clone whose remote head and configured default branch answer. *)
Definition cloned : Utils :=
  machine
    [ (remote_head_command "/work/app", "origin/main" ++ LF);
      (default_branch_command "/work/app", "main" ++ LF) ]%string
    [].

(** A clone whose remote head answers the given text. *)
Definition with_remote_head (resp : string) : Utils :=
  machine [ (remote_head_command "/work/app", resp) ] [].

(** The machine [app] on which another repository answers as well and
    the directory [/work] can be listed. *)
Definition crowded : Utils :=
  machine
    [ (branch_command "/work/app", "main" ++ LF);
      (status_command "/work/app", " M README.md" ++ LF);
      (revlist_command "/work/app" None, "2" ++ TAB ++ "1" ++ LF);
      (diff_command "/work/app",
       " 1 file changed, 1 insertion(+), 1 deletion(-)" ++ LF);
      (branch_command "/work/lib", "develop" ++ LF);
      (worktree_command "/work/lib", "true" ++ LF) ]%string
    [ ("/work", ["/work/app"; "/work/lib"]) ].

End Sample.

(** ** The extractors, one request each *)

Section Extractors.

Variable u : Utils.
Variable dir : string.

Lemma getGitShortStatus_eq :
  getGitShortStatus u dir =
  ([Exec (status_command dir)],
   Resolved
     match run u (status_command dir) with
     | Resolved resp =>
         {| info_status := trimNewLines u resp; info_tooManyChanges := None |}
     | Rejected _ =>
         {| info_status := ""; info_tooManyChanges := Some true |}
     end).
Proof.
  unfold getGitShortStatus, cmd, try_catch, bind, status_command.
  destruct (run u _); reflexivity.
Qed.

Lemma getCurrentBranch_eq :
  getCurrentBranch u dir =
  ([Exec (branch_command dir)],
   match run u (branch_command dir) with
   | Resolved resp =>
       Resolved (if truthy_string (trimWhitespace u resp)
                 then trimWhitespace u resp else "Detached Head")
   | Rejected e => Rejected e
   end).
Proof.
  unfold getCurrentBranch, cmd, bind, branch_command.
  destruct (run u _); reflexivity.
Qed.

Lemma getAheadBehindCount_rejected branch e :
  run u (revlist_command dir branch) = Rejected e ->
  getAheadBehindCount u dir branch =
  ([Exec (revlist_command dir branch)],
   Resolved {| ahead := None; behind := None |}).
Proof.
  intros H. unfold getAheadBehindCount, cmd, try_catch, bind.
  fold (revlist_command dir branch). rewrite H. reflexivity.
Qed.

Lemma getAheadBehindCount_resolved branch resp :
  run u (revlist_command dir branch) = Resolved resp ->
  getAheadBehindCount u dir branch =
  ([Exec (revlist_command dir branch)],
   Resolved
     (let arr := match js_match resp re_ahead_behind with
                 | Some a => a
                 | None => []
                 end in
      {| ahead := Some (Number_of_capture (nth 1 arr None));
         behind := Some (Number_of_capture (nth 2 arr None)) |})).
Proof.
  intros H. unfold getAheadBehindCount, cmd, try_catch, bind.
  fold (revlist_command dir branch). rewrite H. reflexivity.
Qed.

Lemma getAheadBehindCount_total branch :
  exists d,
    getAheadBehindCount u dir branch =
    ([Exec (revlist_command dir branch)], Resolved d).
Proof.
  destruct (run u (revlist_command dir branch)) as [resp|e] eqn:H.
  - eexists. apply getAheadBehindCount_resolved. exact H.
  - eexists. apply getAheadBehindCount_rejected with (e := e). exact H.
Qed.

Lemma tryCmd_eq command :
  tryCmd u command =
  ([Exec command],
   Resolved match run u command with
            | Resolved resp => lines u resp
            | Rejected _ => []
            end).
Proof.
  unfold tryCmd, cmd, try_catch, bind. destruct (run u command); reflexivity.
Qed.

Lemma getModifiedCounts_eq l :
  result (tryCmd u (diff_command dir)) = Resolved l ->
  getModifiedCounts u dir =
  ([Exec (diff_command dir)], Resolved (counts_of l)).
Proof.
  rewrite tryCmd_eq. unfold result. cbn [snd]. intros H.
  unfold getModifiedCounts. fold (diff_command dir). rewrite tryCmd_eq.
  injection H as H. rewrite H. unfold counts_of, bind.
  destruct (hd_error l) as [stats|]; [|reflexivity].
  destruct (negb (truthy_string stats)); reflexivity.
Qed.

Lemma getModifiedCounts_total :
  exists m,
    getModifiedCounts u dir = ([Exec (diff_command dir)], Resolved m).
Proof.
  eexists. apply getModifiedCounts_eq. rewrite tryCmd_eq. reflexivity.
Qed.

Lemma isGitDirectory_eq :
  isGitDirectory u dir =
  ([Exec (worktree_command dir)], Resolved (is_working_tree u dir)).
Proof.
  unfold is_working_tree, isGitDirectory, cmd, try_catch, bind, result.
  fold (worktree_command dir).
  destruct (run u (worktree_command dir)); reflexivity.
Qed.

Lemma getGitStatusInfo_resolved b s d m :
  result (getCurrentBranch u dir) = Resolved b ->
  result (getGitShortStatus u dir) = Resolved s ->
  result (getAheadBehindCount u dir None) = Resolved d ->
  result (getModifiedCounts u dir) = Resolved m ->
  getGitStatusInfo u dir = (four_requests dir, Resolved (assemble u dir b s d m)).
Proof.
  destruct (getAheadBehindCount_total None) as [d' Hd].
  destruct getModifiedCounts_total as [m' Hm].
  rewrite getCurrentBranch_eq, getGitShortStatus_eq, Hd, Hm.
  unfold result. cbn [snd]. intros Hb Hs Hd' Hm'.
  unfold getGitStatusInfo.
  rewrite getCurrentBranch_eq, getGitShortStatus_eq, Hd, Hm.
  injection Hd' as ->. injection Hm' as ->. injection Hs as Hs.
  rewrite Hb, Hs. reflexivity.
Qed.

Lemma getGitStatusInfo_rejected e :
  result (getCurrentBranch u dir) = Rejected e ->
  getGitStatusInfo u dir = (four_requests dir, Rejected e).
Proof.
  destruct (getAheadBehindCount_total None) as [d Hd].
  destruct getModifiedCounts_total as [m Hm].
  rewrite getCurrentBranch_eq. unfold result. cbn [snd]. intros Hb.
  unfold getGitStatusInfo.
  rewrite getCurrentBranch_eq, getGitShortStatus_eq, Hd, Hm, Hb.
  reflexivity.
Qed.

Lemma getGitStatusInfo_inv r :
  result (getGitStatusInfo u dir) = Resolved r ->
  exists b s d m,
    result (getCurrentBranch u dir) = Resolved b /\
    result (getGitShortStatus u dir) = Resolved s /\
    result (getAheadBehindCount u dir None) = Resolved d /\
    result (getModifiedCounts u dir) = Resolved m /\
    r = assemble u dir b s d m.
Proof.
  intros H.
  destruct (getAheadBehindCount_total None) as [d Hd].
  destruct getModifiedCounts_total as [m Hm].
  destruct (result (getCurrentBranch u dir)) as [b|e] eqn:Hb.
  - exists b, (match run u (status_command dir) with
               | Resolved resp =>
                   {| info_status := trimNewLines u resp;
                      info_tooManyChanges := None |}
               | Rejected _ =>
                   {| info_status := ""; info_tooManyChanges := Some true |}
               end), d, m.
    assert (Hs : result (getGitShortStatus u dir) = Resolved
               (match run u (status_command dir) with
               | Resolved resp =>
                   {| info_status := trimNewLines u resp;
                      info_tooManyChanges := None |}
               | Rejected _ =>
                   {| info_status := ""; info_tooManyChanges := Some true |}
               end)) by (rewrite getGitShortStatus_eq; reflexivity).
    assert (Hd' : result (getAheadBehindCount u dir None) = Resolved d)
      by (rewrite Hd; reflexivity).
    assert (Hm' : result (getModifiedCounts u dir) = Resolved m)
      by (rewrite Hm; reflexivity).
    rewrite (getGitStatusInfo_resolved Hb Hs Hd' Hm') in H.
    unfold result in H. cbn [snd] in H. injection H as <-.
    repeat split; assumption.
  - rewrite (getGitStatusInfo_rejected Hb) in H. discriminate H.
Qed.

End Extractors.

(** ** Facts about the values *)

Lemma Boolean_number_gt_zero (x : number) :
  Boolean_number x = gt_zero x.
Proof.
  destruct x as [|n]; [reflexivity|].
  cbn. destruct n; reflexivity.
Qed.

Lemma Boolean_nullable_present (x : option number) :
  Boolean_nullable x = present_and_positive x.
Proof.
  destruct x as [v|]; [apply Boolean_number_gt_zero|reflexivity].
Qed.

Lemma Number_or_zero (x : option string) :
  Number_ (or_zero x) =
  match x with
  | Some g => Number_of_string g
  | None => Num 0
  end.
Proof.
  destruct x as [g|]; [|reflexivity].
  destruct g; reflexivity.
Qed.

Lemma digits_have_a_value (s : string) :
  every is_digit s = true -> not_NaN (Number_of_string s) = true.
Proof.
  unfold Number_of_string. generalize 0%N as acc.
  induction s as [|a s IH]; cbn [every digits_value]; intros acc H.
  - reflexivity.
  - apply andb_true_iff in H as [Ha Hs]. rewrite Ha. apply IH, Hs.
Qed.

Lemma every_impl (P Q : ascii -> bool) (s : string) :
  (forall a, P a = true -> Q a = true) ->
  every P s = true -> every Q s = true.
Proof.
  intros HPQ. induction s as [|a s IH]; cbn [every]; [trivial|].
  intros H. apply andb_true_iff in H as [Ha Hs].
  rewrite (HPQ a Ha), (IH Hs). reflexivity.
Qed.

Lemma is_number_digits (s : string) :
  is_number s = true -> s <> "" /\ every is_digit s = true.
Proof.
  unfold is_number. intros H. apply andb_true_iff in H as [H1 H2].
  split; [|exact H2]. intros ->. discriminate H1.
Qed.

Lemma space_is_no_digit (a : ascii) :
  is_space a = true -> negb (is_digit a) = true.
Proof.
  destruct a as [[] [] [] [] [] [] [] []]; vm_compute; congruence.
Qed.

Lemma digit_is_no_letter (c a : ascii) :
  is_digit c = false -> is_digit a = true -> negb (Ascii.eqb c a) = true.
Proof.
  intros Hc Ha. apply negb_true_iff, Ascii.eqb_neq.
  intros ->. rewrite Ha in Hc. discriminate Hc.
Qed.

Lemma space_is_no_letter (c a : ascii) :
  is_space c = false -> is_space a = true -> negb (Ascii.eqb c a) = true.
Proof.
  intros Hc Ha. apply negb_true_iff, Ascii.eqb_neq.
  intros ->. rewrite Ha in Hc. discriminate Hc.
Qed.

(** ** Facts about the matcher *)

Lemma consumed_nothing (s : string) : consumed s s = "".
Proof.
  unfold consumed. rewrite Nat.sub_diag. destruct s; reflexivity.
Qed.

Lemma consumed_app (pre s : string) : consumed (pre ++ s) s = pre.
Proof.
  unfold consumed.
  assert (H : (String.length (pre ++ s) - String.length s = String.length pre)%nat).
  { induction pre as [|a pre IH]; cbn [append String.length].
    - apply Nat.sub_diag.
    - rewrite Nat.sub_succ_l; [rewrite IH; reflexivity|].
      clear IH. induction pre as [|b pre IH]; cbn [append String.length]; lia. }
  rewrite H. clear H.
  induction pre as [|a pre IH]; cbn [append String.length substring].
  - destruct s; reflexivity.
  - rewrite IH. reflexivity.
Qed.

Lemma star_greedy_stops {R} (c : cclass) (s : string) (k : string -> option R) :
  starts_outside c s -> star_greedy c s k = k s.
Proof.
  destruct s as [|a s]; cbn [star_greedy]; [reflexivity|].
  intros ->. reflexivity.
Qed.

Lemma star_greedy_app_some {R} (c : cclass) (pre s : string)
    (k : string -> option R) (r : R) :
  every (in_class c) pre = true ->
  star_greedy c s k = Some r ->
  star_greedy c (pre ++ s) k = Some r.
Proof.
  intros Hp Hs. induction pre as [|a pre IH]; [exact Hs|].
  cbn [every] in Hp. apply andb_true_iff in Hp as [Ha Hp].
  cbn [append star_greedy]. rewrite Ha, (IH Hp). reflexivity.
Qed.

Lemma star_greedy_app_none {R} (c : cclass) (pre s : string)
    (k : string -> option R) :
  every (in_class c) pre = true ->
  (forall a x, in_class c a = true -> k (String a x) = None) ->
  star_greedy c s k = None ->
  star_greedy c (pre ++ s) k = None.
Proof.
  intros Hp Hk Hs. induction pre as [|a pre IH]; [exact Hs|].
  cbn [every] in Hp. apply andb_true_iff in Hp as [Ha Hp].
  cbn [append star_greedy]. rewrite Ha, (IH Hp). apply Hk, Ha.
Qed.

Lemma star_greedy_inv {R} (c : cclass) (s : string)
    (k : string -> option R) (r : R) :
  star_greedy c s k = Some r ->
  exists pre s',
    s = (pre ++ s')%string /\ every (in_class c) pre = true /\ k s' = Some r.
Proof.
  induction s as [|a s IH]; cbn [star_greedy]; intros H.
  - exists "", "". repeat split. exact H.
  - destruct (in_class c a) eqn:Ha.
    + destruct (star_greedy c s k) as [r'|] eqn:E.
      * injection H as ->. destruct (IH eq_refl) as (pre & s' & -> & Hp & Hk).
        exists (String a pre), s'. cbn [append every]. rewrite Ha, Hp.
        repeat split. exact Hk.
      * exists "", (String a s). repeat split. exact H.
    + exists "", (String a s). repeat split. exact H.
Qed.

Lemma star_greedy_answers {R} (c : cclass) (s : string)
    (k : string -> option R) :
  (forall x, k x <> None) -> star_greedy c s k <> None.
Proof.
  intros Hk. induction s as [|a s IH]; cbn [star_greedy].
  - apply Hk.
  - destruct (in_class c a); [|apply Hk].
    destruct (star_greedy c s k); [discriminate|apply Hk].
Qed.

Lemma search_here (r : regex) (s : string) (m : string * captures) :
  match_here r s = Some m -> search r s = Some m.
Proof.
  intros H. destruct s; cbn [search]; rewrite H; reflexivity.
Qed.

Lemma search_step (r : regex) (a : ascii) (s : string) :
  match_here r (String a s) = None ->
  search r (String a s) = search r s.
Proof. intros H. cbn [search]. rewrite H. reflexivity. Qed.

(** ** A word that does not occur *)

Lemma occurs_tail (t : string) (a : ascii) (s : string) :
  occurs t (String a s) = false -> occurs t s = false.
Proof.
  cbn [occurs]. destruct (strip_prefix t (String a s)); [discriminate|].
  trivial.
Qed.

Lemma occurs_head (t s : string) :
  occurs t s = false -> strip_prefix t s = None.
Proof.
  destruct s as [|a s]; cbn [occurs];
    destruct (strip_prefix t _); [discriminate|trivial|discriminate|trivial].
Qed.

Lemma strip_prefix_occurs (t s rest : string) :
  strip_prefix t s = Some rest -> occurs t s = true.
Proof.
  intros H. destruct s; cbn [occurs]; rewrite H; reflexivity.
Qed.

Lemma occurs_longer (a : ascii) (t s : string) :
  occurs t s = false -> occurs (String a t) s = false.
Proof.
  induction s as [|b s IH]; intros H.
  - reflexivity.
  - pose proof (occurs_tail _ _ _ H) as Ht.
    cbn [occurs strip_prefix].
    destruct (Ascii.eqb a b).
    + destruct (strip_prefix t s) as [rest|] eqn:E.
      * rewrite (strip_prefix_occurs _ _ E) in Ht. discriminate Ht.
      * apply IH, Ht.
    + apply IH, Ht.
Qed.

Lemma occurs_skip (c : ascii) (t pre s : string) :
  every (fun a => negb (Ascii.eqb c a)) pre = true ->
  occurs (String c t) (pre ++ s) = occurs (String c t) s.
Proof.
  induction pre as [|a pre IH]; cbn [every]; intros H.
  - reflexivity.
  - apply andb_true_iff in H as [Ha Hp].
    change (String a pre ++ s)%string with (String a (pre ++ s)%string).
    cbn [occurs strip_prefix].
    apply negb_true_iff in Ha. rewrite Ha. apply IH, Hp.
Qed.

Lemma word_after_space (word : string) (a : ascii) (x : string) :
  is_digit a = true -> strip_prefix (String " " word) (String a x) = None.
Proof.
  intros Ha. cbn [strip_prefix].
  destruct (Ascii.eqb " " a) eqn:E; [|reflexivity].
  apply Ascii.eqb_eq in E. subst a. discriminate Ha.
Qed.

Lemma singular_line_has_no_plural (lead f i d : string) :
  every is_space lead = true ->
  every is_digit f = true ->
  every is_digit i = true ->
  every is_digit d = true ->
  occurs "files" (singular_line lead f i d) = false /\
  occurs "insertions" (singular_line lead f i d) = false /\
  occurs "deletions" (singular_line lead f i d) = false.
Proof.
  intros Hl Hf Hi Hd. unfold singular_line.
  assert (skip : forall c t pre s,
             is_digit c = false -> every is_digit pre = true ->
             occurs (String c t) (pre ++ s) = occurs (String c t) s).
  { intros c t pre s Hc Hp. apply occurs_skip.
    apply (every_impl is_digit); [|exact Hp].
    intros a. apply digit_is_no_letter, Hc. }
  assert (skip' : forall c t s,
             is_space c = false ->
             occurs (String c t) (lead ++ s) = occurs (String c t) s).
  { intros c t s Hc. apply occurs_skip.
    apply (every_impl is_space); [|exact Hl].
    intros a. apply space_is_no_letter, Hc. }
  repeat split.
  - rewrite skip' by reflexivity. rewrite skip by (reflexivity || assumption).
    cbn. rewrite skip by (reflexivity || assumption).
    cbn. rewrite skip by (reflexivity || assumption). reflexivity.
  - rewrite skip' by reflexivity. rewrite skip by (reflexivity || assumption).
    cbn. rewrite skip by (reflexivity || assumption).
    cbn. rewrite skip by (reflexivity || assumption). reflexivity.
  - rewrite skip' by reflexivity. rewrite skip by (reflexivity || assumption).
    cbn. rewrite skip by (reflexivity || assumption).
    cbn. rewrite skip by (reflexivity || assumption). reflexivity.
Qed.

(** ** The counting patterns: digits, then a word *)

Lemma match_here_counted (t : string) (a : ascii) (s : string) :
  match_here (counted t) (String a s) =
  if is_digit a
  then star_greedy Digit s
         (fun s' => match strip_prefix t s' with
                    | Some rest =>
                        Some (consumed (String a s) rest,
                              [(1, consumed (String a s) s')])
                    | None => None
                    end)
  else None.
Proof. reflexivity. Qed.

Lemma star_greedy_text_none {R} (c : cclass) (t : string)
    (k : string -> string -> option R) (s : string) :
  occurs t s = false ->
  star_greedy c s
    (fun s' => match strip_prefix t s' with
               | Some s'' => k s' s''
               | None => None
               end) = None.
Proof.
  induction s as [|a s IH]; intros H.
  - cbn [star_greedy]. rewrite (occurs_head _ _ H). reflexivity.
  - cbn [star_greedy]. rewrite (IH (occurs_tail _ _ _ H)).
    rewrite (occurs_head _ _ H). destruct (in_class c a); reflexivity.
Qed.

Lemma match_here_counted_none (t s : string) :
  occurs t s = false ->
  match_here (counted t) s = None.
Proof.
  intros H. unfold match_here, counted. cbn [exec_at].
  destruct s as [|a s]; [reflexivity|].
  destruct (in_class Digit a); [|reflexivity].
  apply (star_greedy_text_none Digit t
           (fun s' s'' =>
              Some (consumed (String a s) s'',
                    [(1, consumed (String a s) s')]))).
  apply (occurs_tail _ _ _ H).
Qed.

Lemma search_counted_none (t s : string) :
  occurs t s = false ->
  search (counted t) s = None.
Proof.
  induction s as [|a s IH]; intros H.
  - cbn [search]. rewrite (match_here_counted_none _ _ H). reflexivity.
  - cbn [search]. rewrite (match_here_counted_none _ _ H).
    apply IH, (occurs_tail _ _ _ H).
Qed.

Lemma clause_absent (word stats : string) :
  occurs word stats = false ->
  clause (counted (String " " word)) stats = None.
Proof.
  intros H. unfold clause, js_match.
  rewrite (search_counted_none _ _ (occurs_longer " " _ _ H)).
  reflexivity.
Qed.

(** Text without digits in front of the input is passed over. *)
Lemma search_counted_skip_text (t lit s : string) :
  no_digit lit = true ->
  search (counted t) (lit ++ s) = search (counted t) s.
Proof.
  induction lit as [|a lit IH]; cbn [every]; intros H; [reflexivity|].
  apply andb_true_iff in H as [Ha Hl]. apply negb_true_iff in Ha.
  cbn [append]. rewrite search_step.
  - apply IH, Hl.
  - rewrite match_here_counted, Ha. reflexivity.
Qed.

(** A number that is not followed by the word is passed over. *)
Lemma search_counted_skip_number (t pre s : string) :
  every is_digit pre = true ->
  (forall a x, is_digit a = true -> strip_prefix t (String a x) = None) ->
  starts_outside Digit s ->
  strip_prefix t s = None ->
  search (counted t) (pre ++ s) = search (counted t) s.
Proof.
  intros Hp Ht Hs Hn. induction pre as [|a pre IH]; [reflexivity|].
  cbn [every] in Hp. apply andb_true_iff in Hp as [Ha Hp].
  cbn [append]. rewrite search_step; [apply IH, Hp|].
  rewrite match_here_counted, Ha.
  apply star_greedy_app_none.
  - exact Hp.
  - intros b x Hb. rewrite (Ht b x Hb). reflexivity.
  - rewrite star_greedy_stops by exact Hs. rewrite Hn. reflexivity.
Qed.

(** A number followed by the word is the match, and it is captured. *)
Lemma search_counted_number (t : string) (a : ascii) (pre s rest : string) :
  every is_digit (String a pre) = true ->
  starts_outside Digit s ->
  strip_prefix t s = Some rest ->
  clause (counted t) (String a pre ++ s) = Some (String a pre).
Proof.
  intros Hp Hs Ht.
  cbn [every] in Hp. apply andb_true_iff in Hp as [Ha Hp].
  unfold clause, js_match.
  rewrite (@search_here _ _ (consumed (String a pre ++ s) rest,
                             [(1, consumed (String a pre ++ s) s)])).
  - cbn [opt_index group_count counted Nat.max seq map nth capture Nat.eqb].
    rewrite (consumed_app (String a pre) s). reflexivity.
  - cbn [append]. rewrite match_here_counted, Ha.
    apply star_greedy_app_some; [exact Hp|].
    rewrite star_greedy_stops by exact Hs. rewrite Ht. reflexivity.
Qed.

Lemma clause_skip_text (t lit s : string) :
  no_digit lit = true ->
  clause (counted t) (lit ++ s) = clause (counted t) s.
Proof.
  intros H. unfold clause, js_match.
  rewrite (search_counted_skip_text t lit s H). reflexivity.
Qed.

Lemma clause_skip_number (t pre s : string) :
  every is_digit pre = true ->
  (forall a x, is_digit a = true -> strip_prefix t (String a x) = None) ->
  starts_outside Digit s ->
  strip_prefix t s = None ->
  clause (counted t) (pre ++ s) = clause (counted t) s.
Proof.
  intros Hp Ht Hs Hn. unfold clause, js_match.
  rewrite (search_counted_skip_number t pre s Hp Ht Hs Hn). reflexivity.
Qed.

Ltac pass_text :=
  rewrite clause_skip_text by
    (reflexivity || (eapply every_impl; [apply space_is_no_digit|assumption])).

Ltac pass_number :=
  rewrite clause_skip_number by
    first [assumption | exact eq_refl | apply word_after_space].

Lemma summary_both_clauses (lead f i d : string) :
  every is_space lead = true ->
  is_number f = true -> is_number i = true -> is_number d = true ->
  clause re_files (summary_both lead f i d) = Some f /\
  clause re_insertions (summary_both lead f i d) = Some i /\
  clause re_deletions (summary_both lead f i d) = Some d.
Proof.
  intros Hl Hf Hi Hd.
  apply is_number_digits in Hf as [Hf0 Hf].
  apply is_number_digits in Hi as [Hi0 Hi].
  apply is_number_digits in Hd as [Hd0 Hd].
  unfold summary_both.
  change re_files with (counted " files").
  change re_insertions with (counted " insertions").
  change re_deletions with (counted " deletions").
  repeat split.
  - pass_text. 
    destruct f as [|a f]; [contradiction|].
    eapply search_counted_number; [assumption | exact eq_refl | reflexivity].
  - pass_text. pass_number.
    pass_text.
    destruct i as [|a i]; [contradiction|].
    eapply search_counted_number; [assumption | exact eq_refl | reflexivity].
  - pass_text. pass_number. pass_text. pass_number. pass_text.
    destruct d as [|a d]; [contradiction|].
    eapply search_counted_number; [assumption | exact eq_refl | reflexivity].
Qed.

Lemma summary_deletions_clauses (lead f d : string) :
  every is_space lead = true ->
  is_number f = true -> is_number d = true ->
  clause re_files (summary_deletions lead f d) = Some f /\
  clause re_insertions (summary_deletions lead f d) = None /\
  clause re_deletions (summary_deletions lead f d) = Some d.
Proof.
  intros Hl Hf Hd.
  apply is_number_digits in Hf as [Hf0 Hf].
  apply is_number_digits in Hd as [Hd0 Hd].
  unfold summary_deletions.
  change re_files with (counted " files").
  change re_insertions with (counted " insertions").
  change re_deletions with (counted " deletions").
  repeat split.
  - pass_text.
    destruct f as [|a f]; [contradiction|].
    eapply search_counted_number; [assumption | exact eq_refl | reflexivity].
  - pass_text. pass_number. pass_text. pass_number. reflexivity.
  - pass_text. pass_number. pass_text.
    destruct d as [|a d]; [contradiction|].
    eapply search_counted_number; [assumption | exact eq_refl | reflexivity].
Qed.

Lemma match_here_counted_inv (t s w : string) (caps : captures) :
  match_here (counted t) s = Some (w, caps) ->
  exists g, caps = [(1, g)] /\ every is_digit g = true.
Proof.
  destruct s as [|a s]; [discriminate|].
  rewrite match_here_counted.
  destruct (is_digit a) eqn:Ha; [|discriminate].
  intros H. apply star_greedy_inv in H as (pre & s' & -> & Hp & Hk).
  destruct (strip_prefix t s'); [|discriminate].
  injection Hk as _ <-.
  exists (String a pre). split.
  - change (String a (pre ++ s')) with (String a pre ++ s')%string.
    rewrite consumed_app. reflexivity.
  - cbn [every]. rewrite Ha. exact Hp.
Qed.

Lemma search_counted_inv (t s w : string) (caps : captures) :
  search (counted t) s = Some (w, caps) ->
  exists g, caps = [(1, g)] /\ every is_digit g = true.
Proof.
  induction s as [|a s IH]; cbn [search].
  - destruct (match_here (counted t) "") as [[w' caps']|] eqn:E; [|discriminate].
    intros H. injection H as -> ->. apply (match_here_counted_inv _ _ E).
  - destruct (match_here (counted t) (String a s)) as [[w' caps']|] eqn:E.
    + intros H. injection H as -> ->. apply (match_here_counted_inv _ _ E).
    + apply IH.
Qed.

Lemma clause_or_zero_number (t stats : string) :
  not_NaN (clause_or_zero (counted t) stats) = true.
Proof.
  unfold clause_or_zero, clause, js_match.
  destruct (search (counted t) stats) as [[w caps]|] eqn:E; [|reflexivity].
  destruct (search_counted_inv _ _ E) as (g & -> & Hg).
  cbn. apply digits_have_a_value, Hg.
Qed.

(** ** The ahead/behind pattern *)

Lemma no_digit_head (s : string) :
  no_digit s = true -> starts_outside Digit s.
Proof.
  destruct s as [|a s]; cbn; [trivial|].
  intros H. apply andb_true_iff in H as [Ha _].
  apply negb_true_iff, Ha.
Qed.

Lemma spaces_then_no_digits (s : string) (whole : string -> string)
    (caps : captures) :
  no_digit s = true ->
  exists w,
    star_greedy Space s
      (fun s' =>
         star_greedy Digit s'
           (fun s'' => Some (whole s'', (2, consumed s' s'') :: caps)))
    = Some (w, (2, "") :: caps).
Proof.
  induction s as [|a s IH]; intros H.
  - eexists. reflexivity.
  - pose proof (no_digit_head _ H) as Hhead.
    unfold no_digit in H. cbn [every] in H.
    apply andb_true_iff in H as [_ Hs].
    destruct (IH Hs) as [w Hw].
    cbn [star_greedy]. rewrite Hw.
    destruct (in_class Space a).
    + exists w. reflexivity.
    + eexists. cbn [in_class] in Hhead |- *. rewrite Hhead.
      rewrite consumed_nothing. reflexivity.
Qed.

Lemma match_here_no_digits (s : string) :
  no_digit s = true ->
  exists w, match_here re_ahead_behind s = Some (w, [(2, ""); (1, "")]).
Proof.
  intros H. unfold match_here, re_ahead_behind. cbn [exec_at].
  rewrite (star_greedy_stops Digit s _ (no_digit_head _ H)).
  rewrite consumed_nothing.
  apply (spaces_then_no_digits s (fun rest => consumed s rest) [(1, "")] H).
Qed.

Lemma js_match_no_digits (s : string) :
  no_digit s = true ->
  exists w, js_match s re_ahead_behind = Some [Some w; Some ""; Some ""].
Proof.
  intros H. destruct (match_here_no_digits s H) as [w Hw].
  exists w. unfold js_match. rewrite (search_here _ _ Hw). reflexivity.
Qed.

Lemma match_here_ahead_behind (s : string) :
  exists w g1 g2,
    match_here re_ahead_behind s = Some (w, [(2, g2); (1, g1)]) /\
    every is_digit g1 = true /\ every is_digit g2 = true.
Proof.
  unfold match_here, re_ahead_behind. cbn [exec_at].
  match goal with
  | |- exists w g1 g2, ?m = _ /\ _ => destruct m as [[w caps]|] eqn:E
  end.
  - apply star_greedy_inv in E as (p1 & s1 & -> & Hp1 & E).
    apply star_greedy_inv in E as (p2 & s2 & -> & _ & E).
    apply star_greedy_inv in E as (p3 & s3 & -> & Hp3 & E).
    injection E as <- <-.
    rewrite !consumed_app.
    exists (consumed (p1 ++ p2 ++ p3 ++ s3) s3), p1, p3. repeat split; assumption.
  - exfalso. revert E. apply star_greedy_answers. intros s1.
    apply star_greedy_answers. intros s2.
    apply star_greedy_answers. intros s3. discriminate.
Qed.

Lemma js_match_ahead_behind (s : string) :
  exists w g1 g2,
    js_match s re_ahead_behind = Some [Some w; Some g1; Some g2] /\
    every is_digit g1 = true /\ every is_digit g2 = true.
Proof.
  destruct (match_here_ahead_behind s) as (w & g1 & g2 & H & H1 & H2).
  exists w, g1, g2. unfold js_match. rewrite (search_here _ _ H).
  repeat split; assumption.
Qed.

(** ** What the extractors return *)

Lemma counts_of_line (stats : string) (rest : list string) :
  counts_of (stats :: rest) =
  {| files := clause_or_zero re_files stats;
     insertions := clause_or_zero re_insertions stats;
     deletions := clause_or_zero re_deletions stats |}.
Proof.
  unfold counts_of, clause_or_zero, clause. cbn [hd_error].
  destruct stats as [|a s].
  - reflexivity.
  - cbn [truthy_string negb]. rewrite !Number_or_zero. reflexivity.
Qed.

Lemma getAheadBehindCount_numbers (u : Utils) (dir : string)
    (branch : option string) (d : IDiffCommitCount) :
  result (getAheadBehindCount u dir branch) = Resolved d ->
  number_or_absent (ahead d) = true /\ number_or_absent (behind d) = true.
Proof.
  destruct (run u (revlist_command dir branch)) as [resp|e] eqn:E.
  - rewrite (getAheadBehindCount_resolved u dir branch E).
    destruct (js_match_ahead_behind resp) as (w & g1 & g2 & -> & H1 & H2).
    unfold result. cbn [snd]. intros H. injection H as <-.
    cbn. split; apply digits_have_a_value; assumption.
  - rewrite (getAheadBehindCount_rejected u dir branch E).
    unfold result. cbn [snd]. intros H. injection H as <-.
    split; reflexivity.
Qed.

Lemma getModifiedCounts_numbers (u : Utils) (dir : string)
    (m : IModifiedCount) :
  result (getModifiedCounts u dir) = Resolved m ->
  not_NaN (files m) = true /\
  not_NaN (insertions m) = true /\
  not_NaN (deletions m) = true.
Proof.
  rewrite (@getModifiedCounts_eq u dir
             match run u (diff_command dir) with
             | Resolved resp => lines u resp
             | Rejected _ => []
             end) by (rewrite tryCmd_eq; reflexivity).
  unfold result. cbn [snd]. intros H. injection H as <-.
  destruct (match run u (diff_command dir) with
            | Resolved resp => lines u resp
            | Rejected _ => []
            end) as [|stats rest].
  - repeat split; reflexivity.
  - rewrite counts_of_line. cbn [files insertions deletions].
    repeat split; apply clause_or_zero_number.
Qed.

(** ** The detector and the aggregate *)

Lemma Promise_all_isGitDirectory (u : Utils) (dirs : list string) :
  Promise_all (map (isGitDirectory u) dirs) =
  (worktree_requests dirs, Resolved (map (is_working_tree u) dirs)).
Proof.
  induction dirs as [|d dirs IH].
  - reflexivity.
  - cbn [map Promise_all worktree_requests]. rewrite IH.
    rewrite isGitDirectory_eq. reflexivity.
Qed.

Lemma keep_flagged {A} (f : A -> bool) (l : list A) :
  map fst (filter snd (combine l (map f l))) = filter f l.
Proof.
  induction l as [|a l IH]; [reflexivity|].
  cbn [map combine filter snd]. destruct (f a); cbn [map fst]; rewrite IH;
    reflexivity.
Qed.

Lemma filterAsync_isGitDirectory (u : Utils) (dirs : list string) :
  filterAsync dirs (isGitDirectory u) =
  (worktree_requests dirs, Resolved (filter (is_working_tree u) dirs)).
Proof.
  unfold filterAsync. rewrite Promise_all_isGitDirectory.
  unfold bind, ret. rewrite keep_flagged, app_nil_r. reflexivity.
Qed.

Lemma assemble_derivations (u : Utils) (dir b : string)
    (s : IShortStatusInfo) (d : IDiffCommitCount) (m : IModifiedCount) :
  let r := assemble u dir b s d m in
  isDirty r = gt_zero (files (modifiedCount r)) /\
  hasUnmergedCommits r = present_and_positive (ahead (diffCommitCount r)) /\
  hasUnsyncedCommits r =
    hasUnmergedCommits r || present_and_positive (behind (diffCommitCount r)) /\
  hasUnsavedChanges r = isDirty r || hasUnmergedCommits r.
Proof.
  cbn. repeat split.
  - apply Boolean_number_gt_zero.
  - apply Boolean_nullable_present.
  - unfold or_nullable.
    rewrite <- (Boolean_nullable_present (behind d)).
    destruct (Boolean_nullable (ahead d)) eqn:Ha.
    + exact Ha.
    + reflexivity.
Qed.

Lemma getGitStatusInfo_well_formed (u : Utils) (dir : string) (r : IGitStatus) :
  result (getGitStatusInfo u dir) = Resolved r ->
  path r = dir /\ well_formed u r = true.
Proof.
  intros H.
  destruct (getGitStatusInfo_inv u dir H)
    as (b & s & d & m & _ & _ & Hd & Hm & ->).
  split; [reflexivity|].
  destruct (getAheadBehindCount_numbers u dir None Hd) as [Ha Hb].
  destruct (getModifiedCounts_numbers u dir Hm) as (Hf & Hi & Hdel).
  destruct (assemble_derivations u dir b s d m) as (D1 & D2 & D3 & D4).
  unfold well_formed. repeat (apply andb_true_iff; split).
  - apply String.eqb_refl.
  - exact Hf.
  - exact Hi.
  - exact Hdel.
  - exact Ha.
  - exact Hb.
  - apply eqb_true_iff, D1.
  - apply eqb_true_iff, D2.
  - apply eqb_true_iff, D3.
  - apply eqb_true_iff, D4.
  - cbn [assemble status tooManyChanges].
    destruct (1000 <? String.length (info_status s))%nat; [|reflexivity].
    destruct (info_tooManyChanges s) as [[]|]; reflexivity.
Qed.

(** ** The claims of the specification *)

(** C1, as the code has it.  When the branch query answers,
    [getGitStatusInfo] issues its four requests and returns a well-formed
    record for the path, whatever becomes of the short-status,
    ahead/behind and diff queries; when these three all fail the record
    is the default one. *)
Theorem getGitStatusInfo_record_when_branch_answers
    (u : Utils) (dir resp : string) :
  run u (branch_command dir) = Resolved resp ->
  (exists r,
      getGitStatusInfo u dir = (four_requests dir, Resolved r) /\
      path r = dir /\
      well_formed u r = true) /\
  (forall e1 e2 e3,
      run u (status_command dir) = Rejected e1 ->
      run u (revlist_command dir None) = Rejected e2 ->
      run u (diff_command dir) = Rejected e3 ->
      exists b,
        getGitStatusInfo u dir =
        (four_requests dir, Resolved (default_record u dir b))).
Proof.
  intros Hb.
  assert (Hb' : result (getCurrentBranch u dir) =
                Resolved (if truthy_string (trimWhitespace u resp)
                          then trimWhitespace u resp else "Detached Head")).
  { rewrite getCurrentBranch_eq. unfold result. cbn [snd]. rewrite Hb.
    reflexivity. }
  split.
  - destruct (getAheadBehindCount_total u dir None) as [d Hd].
    destruct (getModifiedCounts_total u dir) as [m Hm].
    eexists. split.
    + apply getGitStatusInfo_resolved.
      * exact Hb'.
      * rewrite getGitShortStatus_eq. reflexivity.
      * rewrite Hd. reflexivity.
      * rewrite Hm. reflexivity.
    + apply getGitStatusInfo_well_formed.
      erewrite getGitStatusInfo_resolved.
      * reflexivity.
      * exact Hb'.
      * rewrite getGitShortStatus_eq. reflexivity.
      * rewrite Hd. reflexivity.
      * rewrite Hm. reflexivity.
  - intros e1 e2 e3 H1 H2 H3.
    eexists.
    rewrite (@getGitStatusInfo_resolved u dir _
               {| info_status := ""; info_tooManyChanges := Some true |}
               {| ahead := None; behind := None |}
               {| files := Num 0; insertions := Num 0; deletions := Num 0 |} Hb').
    + reflexivity.
    + rewrite getGitShortStatus_eq, H1. reflexivity.
    + rewrite (getAheadBehindCount_rejected u dir None H2). reflexivity.
    + rewrite (@getModifiedCounts_eq u dir []).
      * reflexivity.
      * rewrite tryCmd_eq, H3. reflexivity.
Qed.

(** The theorem on a working tree where only the branch query answers,
    and on one where all four do. *)
Lemma getGitStatusInfo_record_when_branch_answers_witness :
  (exists b,
      getGitStatusInfo Sample.bare "/work/new" =
      (four_requests "/work/new",
       Resolved (default_record Sample.bare "/work/new" b))) /\
  (exists r,
      getGitStatusInfo Sample.app "/work/app" =
      (four_requests "/work/app", Resolved r) /\
      path r = "/work/app" /\
      well_formed Sample.app r = true).
Proof.
  split.
  - destruct (@getGitStatusInfo_record_when_branch_answers
                Sample.bare "/work/new" LF eq_refl) as [_ H].
    apply (H "Command failed" "Command failed" "Command failed");
      reflexivity.
  - destruct (@getGitStatusInfo_record_when_branch_answers
                Sample.app "/work/app" ("main" ++ LF)%string eq_refl)
      as [H _].
    exact H.
Defined.

(** C1 as written fails: on a discoverable working tree whose branch
    query fails while the three other queries answer, the join is
    rejected and no record is returned. *)
Lemma getGitStatusInfo_join_can_fail :
  ~ (forall (u : Utils) (dir : string),
        is_working_tree u dir = true ->
        exists r, result (getGitStatusInfo u dir) = Resolved r).
Proof.
  intros H.
  destruct (H Sample.old_git "/work/app" eq_refl) as [r Hr].
  vm_compute in Hr. discriminate Hr.
Qed.

(** C2.  In every record that [getGitStatusInfo] returns,
    [tooManyChanges] is true exactly when the short-status query failed
    or the stored status text is longer than 1000 characters. *)
Theorem tooManyChanges_iff_failed_or_long
    (u : Utils) (dir : string) (r : IGitStatus) :
  result (getGitStatusInfo u dir) = Resolved r ->
  tooManyChanges r =
    is_rejected (run u (status_command dir))
    || (1000 <? String.length (status r))%nat.
Proof.
  intros H.
  destruct (getGitStatusInfo_inv u dir H) as (b & s & d & m & _ & Hs & _ & _ & ->).
  rewrite getGitShortStatus_eq in Hs. unfold result in Hs. cbn [snd] in Hs.
  injection Hs as <-.
  destruct (run u (status_command dir)); reflexivity.
Qed.

(** The two signals apart: a failed query with an empty text, and an
    answered query with a text of 1001 characters. *)
Lemma tooManyChanges_iff_failed_or_long_witness :
  (exists r,
      result (getGitStatusInfo Sample.bare "/work/new") = Resolved r /\
      is_rejected (run Sample.bare (status_command "/work/new")) = true /\
      String.length (status r) = 0%nat /\
      tooManyChanges r = true) /\
  (exists r,
      result (getGitStatusInfo Sample.noisy "/work/app") = Resolved r /\
      is_rejected (run Sample.noisy (status_command "/work/app")) = false /\
      String.length (status r) = 1001%nat /\
      tooManyChanges r = true) /\
  (exists r,
      result (getGitStatusInfo Sample.app "/work/app") = Resolved r /\
      tooManyChanges r = false).
Proof.
  split; [|split].
  - eexists. split; [reflexivity|].
    split; [reflexivity|]. split; [reflexivity|].
    rewrite (@tooManyChanges_iff_failed_or_long
               Sample.bare "/work/new" _ eq_refl).
    reflexivity.
  - eexists. split; [reflexivity|].
    split; [reflexivity|]. split; [vm_compute; reflexivity|].
    rewrite (@tooManyChanges_iff_failed_or_long
               Sample.noisy "/work/app" _ eq_refl).
    vm_compute. reflexivity.
  - eexists. split; [reflexivity|].
    rewrite (@tooManyChanges_iff_failed_or_long
               Sample.app "/work/app" _ eq_refl).
    reflexivity.
Defined.

(** C3.  When the ahead/behind query fails (no upstream configured),
    [getAheadBehindCount] reports [ahead] and [behind] absent, the record
    of [getGitStatusInfo] keeps them absent, not zero, and its flags
    [hasUnmergedCommits] and [hasUnsyncedCommits] are false. *)
Theorem no_upstream_is_absent_not_zero (u : Utils) (dir : string) :
  (forall branch e,
      run u (revlist_command dir branch) = Rejected e ->
      result (getAheadBehindCount u dir branch) =
      Resolved {| ahead := None; behind := None |}) /\
  (forall e r,
      run u (revlist_command dir None) = Rejected e ->
      result (getGitStatusInfo u dir) = Resolved r ->
      diffCommitCount r = {| ahead := None; behind := None |} /\
      ahead (diffCommitCount r) <> Some (Num 0) /\
      behind (diffCommitCount r) <> Some (Num 0) /\
      hasUnmergedCommits r = false /\
      hasUnsyncedCommits r = false).
Proof.
  split.
  - intros branch e He.
    rewrite (getAheadBehindCount_rejected u dir branch He). reflexivity.
  - intros e r He H.
    pose proof (getAheadBehindCount_rejected u dir None He) as Hab.
    destruct (getGitStatusInfo_inv u dir H)
      as (b & s & d & m & _ & _ & Hd & _ & ->).
    rewrite Hab in Hd. unfold result in Hd. cbn [snd] in Hd.
    injection Hd as <-. cbn.
    repeat split; discriminate.
Qed.

(** The theorem on a working tree without upstream. *)
Lemma no_upstream_is_absent_not_zero_witness :
  result (getAheadBehindCount Sample.bare "/work/new" (Some "feature")) =
    Resolved {| ahead := None; behind := None |} /\
  exists r,
    result (getGitStatusInfo Sample.bare "/work/new") = Resolved r /\
    diffCommitCount r = {| ahead := None; behind := None |} /\
    hasUnmergedCommits r = false /\
    hasUnsyncedCommits r = false.
Proof.
  destruct (no_upstream_is_absent_not_zero Sample.bare "/work/new")
    as [Hq Hr].
  split.
  - apply (Hq (Some "feature") "Command failed"). reflexivity.
  - eexists. split; [reflexivity|].
    destruct (Hr "Command failed" _ eq_refl eq_refl) as (H1 & _ & _ & H2 & H3).
    repeat split; assumption.
Defined.

(** C4.  Every record that [getGitStatusInfo] returns satisfies the four
    derivations of the flags. *)
Theorem flags_are_derived
    (u : Utils) (dir : string) (r : IGitStatus) :
  result (getGitStatusInfo u dir) = Resolved r ->
  isDirty r = gt_zero (files (modifiedCount r)) /\
  hasUnmergedCommits r = present_and_positive (ahead (diffCommitCount r)) /\
  hasUnsyncedCommits r =
    hasUnmergedCommits r || present_and_positive (behind (diffCommitCount r)) /\
  hasUnsavedChanges r = isDirty r || hasUnmergedCommits r.
Proof.
  intros H.
  destruct (getGitStatusInfo_inv u dir H) as (b & s & d & m & _ & _ & _ & _ & ->).
  apply assemble_derivations.
Qed.

(** The derivations on the all-absent, all-zero default record. *)
Lemma flags_are_derived_witness :
  exists r,
    result (getGitStatusInfo Sample.bare "/work/new") = Resolved r /\
    r = default_record Sample.bare "/work/new" "Detached Head" /\
    hasUnsavedChanges r = isDirty r || hasUnmergedCommits r.
Proof.
  eexists. split; [reflexivity|]. split; [reflexivity|].
  apply (@flags_are_derived Sample.bare "/work/new" _ eq_refl).
Defined.

(** C5.  [getModifiedCounts] returns the all-zero record when the diff
    query yields no line; otherwise each of the three counts is the number
    captured by its pattern, and zero when its clause is absent.  The two
    summaries quoted by the specification give 8, 0, 595 and 4, 15, 5,
    and so do all summaries of their two shapes with their own numbers. *)
Theorem getModifiedCounts_extracts (u : Utils) (dir : string) :
  (forall l,
      result (tryCmd u (diff_command dir)) = Resolved l ->
      hd_error l = None \/ hd_error l = Some "" ->
      result (getModifiedCounts u dir) = Resolved no_changes) /\
  (forall stats rest,
      result (tryCmd u (diff_command dir)) = Resolved (stats :: rest) ->
      exists m,
        result (getModifiedCounts u dir) = Resolved m /\
        files m = clause_or_zero re_files stats /\
        insertions m = clause_or_zero re_insertions stats /\
        deletions m = clause_or_zero re_deletions stats /\
        (clause re_files stats = None -> files m = Num 0) /\
        (clause re_insertions stats = None -> insertions m = Num 0) /\
        (clause re_deletions stats = None -> deletions m = Num 0)) /\
  (forall rest,
      result (tryCmd u (diff_command dir)) =
        Resolved ("8 files changed, 595 deletions(-)" :: rest) ->
      result (getModifiedCounts u dir) =
        Resolved {| files := Num 8; insertions := Num 0; deletions := Num 595 |}) /\
  (forall rest,
      result (tryCmd u (diff_command dir)) =
        Resolved ("4 files changed, 15 insertions(+), 5 deletions(-)" :: rest) ->
      result (getModifiedCounts u dir) =
        Resolved {| files := Num 4; insertions := Num 15; deletions := Num 5 |}) /\
  (forall lead f d rest,
      every is_space lead = true ->
      is_number f = true -> is_number d = true ->
      result (tryCmd u (diff_command dir)) =
        Resolved (summary_deletions lead f d :: rest) ->
      result (getModifiedCounts u dir) =
        Resolved {| files := Number_of_string f;
                    insertions := Num 0;
                    deletions := Number_of_string d |}) /\
  (forall lead f i d rest,
      every is_space lead = true ->
      is_number f = true -> is_number i = true -> is_number d = true ->
      result (tryCmd u (diff_command dir)) =
        Resolved (summary_both lead f i d :: rest) ->
      result (getModifiedCounts u dir) =
        Resolved {| files := Number_of_string f;
                    insertions := Number_of_string i;
                    deletions := Number_of_string d |}).
Proof.
  split; [|split; [|split; [|split; [|split]]]].
  - intros l Hl Hhd. rewrite (getModifiedCounts_eq u dir Hl).
    unfold result. cbn [snd]. f_equal. unfold counts_of.
    destruct Hhd as [-> | ->]; reflexivity.
  - intros stats rest Hl. eexists. split.
    + rewrite (getModifiedCounts_eq u dir Hl). reflexivity.
    + rewrite counts_of_line. cbn [files insertions deletions].
      unfold clause_or_zero.
      repeat split; try reflexivity; intros ->; reflexivity.
  - intros rest Hl. rewrite (getModifiedCounts_eq u dir Hl). reflexivity.
  - intros rest Hl. rewrite (getModifiedCounts_eq u dir Hl). reflexivity.
  - intros lead f d rest Hlead Hf Hd Hl.
    rewrite (getModifiedCounts_eq u dir Hl), counts_of_line.
    unfold clause_or_zero.
    destruct (summary_deletions_clauses lead f d Hlead Hf Hd)
      as (-> & -> & ->).
    reflexivity.
  - intros lead f i d rest Hlead Hf Hi Hd Hl.
    rewrite (getModifiedCounts_eq u dir Hl), counts_of_line.
    unfold clause_or_zero.
    destruct (summary_both_clauses lead f i d Hlead Hf Hi Hd)
      as (-> & -> & ->).
    reflexivity.
Qed.

(** The theorem on a tree without changes, on the two quoted summaries
    and on git's own rendering of the second one, led by a space. *)
Lemma getModifiedCounts_extracts_witness :
  result (getModifiedCounts Sample.bare "/work/new") = Resolved no_changes /\
  result (getModifiedCounts
            (Sample.with_summary "8 files changed, 595 deletions(-)") "/work/app") =
    Resolved {| files := Num 8; insertions := Num 0; deletions := Num 595 |} /\
  result (getModifiedCounts
            (Sample.with_summary
               "4 files changed, 15 insertions(+), 5 deletions(-)") "/work/app") =
    Resolved {| files := Num 4; insertions := Num 15; deletions := Num 5 |} /\
  result (getModifiedCounts
            (Sample.with_summary (summary_both " " "4" "15" "5")) "/work/app") =
    Resolved {| files := Num 4; insertions := Num 15; deletions := Num 5 |}.
Proof.
  split; [|split; [|split]].
  - destruct (getModifiedCounts_extracts Sample.bare "/work/new") as [H _].
    apply (H []); [reflexivity | left; reflexivity].
  - destruct (getModifiedCounts_extracts
                (Sample.with_summary "8 files changed, 595 deletions(-)")
                "/work/app") as (_ & _ & H & _).
    apply (H []). reflexivity.
  - destruct (getModifiedCounts_extracts
                (Sample.with_summary
                   "4 files changed, 15 insertions(+), 5 deletions(-)")
                "/work/app") as (_ & _ & _ & H & _).
    apply (H []). reflexivity.
  - destruct (getModifiedCounts_extracts
                (Sample.with_summary (summary_both " " "4" "15" "5"))
                "/work/app") as (_ & _ & _ & _ & _ & H).
    apply (H " " "4" "15" "5" []); reflexivity.
Defined.

(** C6.  A summary line whose clauses are in the singular, such as
    "1 file changed, 1 insertion(+), 1 deletion(-)", gives the counts
    0, 0, 0, because the patterns ask for the plural words; and a line
    in which "files" does not occur, as for exactly one modified file,
    gives [files = 0] and a record with [isDirty = false]. *)
Theorem singular_summary_counts_nothing
    (u : Utils) (dir stats : string) (rest : list string) :
  result (tryCmd u (diff_command dir)) = Resolved (stats :: rest) ->
  (occurs "files" stats = false ->
   (exists m,
       result (getModifiedCounts u dir) = Resolved m /\ files m = Num 0) /\
   (forall r,
       result (getGitStatusInfo u dir) = Resolved r -> isDirty r = false)) /\
  (occurs "files" stats = false ->
   occurs "insertions" stats = false ->
   occurs "deletions" stats = false ->
   result (getModifiedCounts u dir) = Resolved no_changes) /\
  (forall lead f i d,
      every is_space lead = true ->
      every is_digit f = true ->
      every is_digit i = true ->
      every is_digit d = true ->
      stats = singular_line lead f i d ->
      result (getModifiedCounts u dir) = Resolved no_changes /\
      (forall r,
          result (getGitStatusInfo u dir) = Resolved r -> isDirty r = false)).
Proof.
  intros Hl.
  pose proof (getModifiedCounts_eq u dir Hl) as Hm.
  rewrite counts_of_line in Hm.
  assert (dirty : occurs "files" stats = false ->
                  forall r, result (getGitStatusInfo u dir) = Resolved r ->
                            isDirty r = false).
  { intros Hf r Hr.
    destruct (getGitStatusInfo_inv u dir Hr)
      as (b & s & d & m & _ & _ & _ & Hm' & ->).
    rewrite Hm in Hm'. unfold result in Hm'. cbn [snd] in Hm'.
    injection Hm' as <-. cbn [assemble isDirty files].
    unfold clause_or_zero. change re_files with (counted " files").
    rewrite (clause_absent _ _ Hf).
    reflexivity. }
  assert (zero : occurs "files" stats = false ->
                 occurs "insertions" stats = false ->
                 occurs "deletions" stats = false ->
                 result (getModifiedCounts u dir) = Resolved no_changes).
  { intros Hf Hi Hd. rewrite Hm. unfold result. cbn [snd].
    unfold clause_or_zero.
    change re_files with (counted " files").
    change re_insertions with (counted " insertions").
    change re_deletions with (counted " deletions").
    rewrite (clause_absent _ _ Hf), (clause_absent _ _ Hi),
      (clause_absent _ _ Hd).
    reflexivity. }
  split; [|split].
  - intros Hf. split; [|exact (dirty Hf)].
    eexists. rewrite Hm. split; [reflexivity|].
    cbn [files]. unfold clause_or_zero.
    change re_files with (counted " files").
    rewrite (clause_absent _ _ Hf). reflexivity.
  - exact zero.
  - intros lead f i d Hlead Hf Hi Hd ->.
    destruct (singular_line_has_no_plural lead f i d Hlead Hf Hi Hd)
      as (H1 & H2 & H3).
    split; [exact (zero H1 H2 H3) | exact (dirty H1)].
Qed.

(** The theorem on git's own wording for one file, one line added and
    one line removed. *)
Lemma singular_summary_counts_nothing_witness :
  result (getModifiedCounts Sample.app "/work/app") = Resolved no_changes /\
  exists r,
    result (getGitStatusInfo Sample.app "/work/app") = Resolved r /\
    isDirty r = false.
Proof.
  destruct (@singular_summary_counts_nothing Sample.app "/work/app"
              (singular_line " " "1" "1" "1") [] eq_refl)
    as (_ & _ & H).
  destruct (H " " "1" "1" "1" eq_refl eq_refl eq_refl eq_refl eq_refl)
    as [Hm Hr].
  split; [exact Hm|].
  eexists. split; [reflexivity|]. apply Hr. reflexivity.
Defined.

(** C7.  On a root that is a working tree [getGitDirectories] asks the
    one question about the root and returns [[root]], listing nothing.
    On a root that is not, it returns the listed directories for which
    [isGitDirectory] answers true, in the order of the listing. *)
Theorem getGitDirectories_self_or_children (u : Utils) (root : string) :
  (is_working_tree u root = true ->
   getGitDirectories u root =
   ([Exec (worktree_command root)], Resolved [root])) /\
  (is_working_tree u root = false ->
   forall dirs,
     listing u root = Resolved dirs ->
     getGitDirectories u root =
     (Exec (worktree_command root) :: ReadDir root :: worktree_requests dirs,
      Resolved (filter (is_working_tree u) dirs))).
Proof.
  split.
  - intros H. unfold getGitDirectories. rewrite isGitDirectory_eq, H.
    reflexivity.
  - intros H dirs Hd. unfold getGitDirectories.
    rewrite isGitDirectory_eq, H. unfold bind at 1.
    unfold getDirectories. rewrite Hd. unfold bind at 1.
    rewrite filterAsync_isGitDirectory. unfold bind, ret.
    rewrite app_nil_r. reflexivity.
Qed.

(** The theorem on a clone, and on a folder of three of which two are
    working trees. *)
Lemma getGitDirectories_self_or_children_witness :
  getGitDirectories Sample.app "/work/app" =
    ([Exec (worktree_command "/work/app")], Resolved ["/work/app"]) /\
  result (getGitDirectories Sample.folder "/work") =
    Resolved ["/work/a"; "/work/c"].
Proof.
  split.
  - apply (getGitDirectories_self_or_children Sample.app "/work/app").
    reflexivity.
  - destruct (getGitDirectories_self_or_children Sample.folder "/work")
      as [_ H].
    rewrite (H eq_refl ["/work/a"; "/work/b"; "/work/c"] eq_refl).
    reflexivity.
Defined.

(** C8.  A response of the ahead/behind query in which no digit occurs
    is read as 0 ahead and 0 behind, both present: the very answer given
    for the response "0<TAB>0" of a repository that is in sync. *)
Theorem digitless_response_reads_as_in_sync
    (u : Utils) (dir : string) (branch : option string) (resp : string) :
  no_digit resp = true ->
  run u (revlist_command dir branch) = Resolved resp ->
  result (getAheadBehindCount u dir branch) = Resolved in_sync /\
  forall u',
    run u' (revlist_command dir branch) =
      Resolved ("0" ++ TAB ++ "0" ++ LF)%string ->
    result (getAheadBehindCount u' dir branch) =
    result (getAheadBehindCount u dir branch).
Proof.
  intros Hn Hr.
  assert (H : result (getAheadBehindCount u dir branch) = Resolved in_sync).
  { rewrite (getAheadBehindCount_resolved u dir branch Hr).
    destruct (js_match_no_digits resp Hn) as [w ->]. reflexivity. }
  split; [exact H|].
  intros u' Hr'. rewrite H.
  rewrite (getAheadBehindCount_resolved u' dir branch Hr'). reflexivity.
Qed.

(** The theorem on an error text that came back as output. *)
Lemma digitless_response_reads_as_in_sync_witness :
  no_digit "fatal: bad revision" = true /\
  result (getAheadBehindCount
            (Sample.with_counts "fatal: bad revision") "/work/app" None) =
    Resolved in_sync.
Proof.
  split; [reflexivity|].
  destruct (@digitless_response_reads_as_in_sync
              (Sample.with_counts "fatal: bad revision") "/work/app" None
              "fatal: bad revision" eq_refl eq_refl) as [H _].
  exact H.
Defined.

(** C9, as the code has it.  [getGitShortStatus] never rejects.  When
    the query succeeds it returns the text trimmed by [trimNewLines] and
    leaves [tooManyChanges] unset; when the query fails it returns the
    empty text with [tooManyChanges = true]. *)
Theorem getGitShortStatus_outcomes (u : Utils) (dir : string) :
  (exists s, result (getGitShortStatus u dir) = Resolved s) /\
  (forall resp,
      run u (status_command dir) = Resolved resp ->
      result (getGitShortStatus u dir) =
      Resolved {| info_status := trimNewLines u resp;
                  info_tooManyChanges := None |}) /\
  (forall e,
      run u (status_command dir) = Rejected e ->
      result (getGitShortStatus u dir) =
      Resolved {| info_status := ""; info_tooManyChanges := Some true |}).
Proof.
  rewrite getGitShortStatus_eq. unfold result. cbn [snd].
  split; [eexists; reflexivity|].
  split; intros x ->; reflexivity.
Qed.

(** The theorem on an answered and on a failed query. *)
Lemma getGitShortStatus_outcomes_witness :
  result (getGitShortStatus Sample.app "/work/app") =
    Resolved {| info_status := " M README.md"; info_tooManyChanges := None |} /\
  result (getGitShortStatus Sample.bare "/work/new") =
    Resolved {| info_status := ""; info_tooManyChanges := Some true |}.
Proof.
  split.
  - destruct (getGitShortStatus_outcomes Sample.app "/work/app")
      as (_ & H & _).
    apply (H (" M README.md" ++ LF)%string). reflexivity.
  - destruct (getGitShortStatus_outcomes Sample.bare "/work/new")
      as (_ & _ & H).
    apply (H "Command failed"). reflexivity.
Defined.

(** C9 as written fails: on success the object carries no
    [tooManyChanges] at all, which is not the boolean [false]. *)
Lemma getGitShortStatus_success_flag_is_unset :
  ~ (forall (u : Utils) (dir resp : string),
        run u (status_command dir) = Resolved resp ->
        result (getGitShortStatus u dir) =
        Resolved {| info_status := trimNewLines u resp;
                    info_tooManyChanges := Some false |}).
Proof.
  intros H.
  specialize (H Sample.app "/work/app" (" M README.md" ++ LF)%string
                eq_refl).
  vm_compute in H. discriminate H.
Qed.

(** C10.  [getCurrentBranch] returns the response as trimmed by
    [trimWhitespace], and the fixed, non-empty label "Detached Head"
    when that is empty. *)
Theorem getCurrentBranch_trims_or_labels (u : Utils) (dir resp : string) :
  run u (branch_command dir) = Resolved resp ->
  (trimWhitespace u resp <> "" ->
   result (getCurrentBranch u dir) = Resolved (trimWhitespace u resp)) /\
  (trimWhitespace u resp = "" ->
   result (getCurrentBranch u dir) = Resolved "Detached Head") /\
  "Detached Head" <> "" /\
  result (getCurrentBranch u dir) <> Resolved "".
Proof.
  intros H. rewrite getCurrentBranch_eq, H.
  unfold result. cbn [snd].
  destruct (trimWhitespace u resp) as [|a t].
  - repeat split; try discriminate. intros Hne. now destruct Hne.
  - repeat split; discriminate.
Qed.

(** The theorem on a branch name followed by a line break, and on the
    bare line break of a detached head. *)
Lemma getCurrentBranch_trims_or_labels_witness :
  result (getCurrentBranch Sample.app "/work/app") = Resolved "main" /\
  result (getCurrentBranch Sample.bare "/work/new") = Resolved "Detached Head".
Proof.
  split.
  - apply (@getCurrentBranch_trims_or_labels
             Sample.app "/work/app" ("main" ++ LF)%string eq_refl).
    discriminate.
  - apply (@getCurrentBranch_trims_or_labels
             Sample.bare "/work/new" LF eq_refl).
    reflexivity.
Defined.

(** ** Further properties of the module *)

(** *** Reading the ahead/behind response *)

Lemma match_here_ahead_behind_runs (a ws b rest : string) :
  every is_digit a = true ->
  every is_space ws = true ->
  every is_digit b = true ->
  starts_outside Digit (ws ++ b ++ rest) ->
  starts_outside Space (b ++ rest) ->
  starts_outside Digit rest ->
  match_here re_ahead_behind (a ++ ws ++ b ++ rest) =
  Some (consumed (a ++ ws ++ b ++ rest) rest, [(2, b); (1, a)]).
Proof.
  intros Ha Hws Hb H1 H2 H3.
  unfold match_here, re_ahead_behind. cbn [exec_at].
  apply star_greedy_app_some; [exact Ha|].
  rewrite star_greedy_stops by exact H1. cbv beta.
  apply star_greedy_app_some; [exact Hws|].
  rewrite star_greedy_stops by exact H2. cbv beta.
  apply star_greedy_app_some; [exact Hb|].
  rewrite star_greedy_stops by exact H3.
  rewrite !consumed_app. reflexivity.
Qed.

(** X1.  A response made of a run of digits, a run of white space and a
    second run of digits, each taken as far as it goes, is read as the
    two numbers, ahead first; an empty run reads as 0 and whatever
    follows the second run is ignored. *)
Theorem getAheadBehindCount_reads_two_runs
    (u : Utils) (dir : string) (branch : option string)
    (a ws b rest : string) :
  every is_digit a = true ->
  every is_space ws = true ->
  every is_digit b = true ->
  starts_outside Digit (ws ++ b ++ rest) ->
  starts_outside Space (b ++ rest) ->
  starts_outside Digit rest ->
  run u (revlist_command dir branch) = Resolved (a ++ ws ++ b ++ rest)%string ->
  result (getAheadBehindCount u dir branch) =
  Resolved {| ahead := Some (Number_of_string a);
              behind := Some (Number_of_string b) |}.
Proof.
  intros Ha Hws Hb H1 H2 H3 Hr.
  rewrite (getAheadBehindCount_resolved u dir branch Hr).
  unfold js_match.
  rewrite (search_here _ _
             (match_here_ahead_behind_runs a ws b rest Ha Hws Hb H1 H2 H3)).
  reflexivity.
Qed.

(** The theorem on git's own answer, on an answer led by a space and on
    an answer that holds a single number. *)
Lemma getAheadBehindCount_reads_two_runs_witness :
  result (getAheadBehindCount
            (Sample.with_counts ("2" ++ TAB ++ "1" ++ LF)) "/work/app" None) =
    Resolved {| ahead := Some (Num 2); behind := Some (Num 1) |} /\
  result (getAheadBehindCount (Sample.with_counts " 3 5") "/work/app" None) =
    Resolved {| ahead := Some (Num 0); behind := Some (Num 3) |} /\
  result (getAheadBehindCount (Sample.with_counts ("7" ++ LF)) "/work/app" None) =
    Resolved {| ahead := Some (Num 7); behind := Some (Num 0) |}.
Proof.
  split; [|split].
  - apply (@getAheadBehindCount_reads_two_runs
             (Sample.with_counts ("2" ++ TAB ++ "1" ++ LF)) "/work/app" None
             "2" TAB "1" LF);
      reflexivity.
  - apply (@getAheadBehindCount_reads_two_runs
             (Sample.with_counts " 3 5") "/work/app" None
             "" " " "3" " 5");
      reflexivity.
  - apply (@getAheadBehindCount_reads_two_runs
             (Sample.with_counts ("7" ++ LF)) "/work/app" None
             "7" LF "" "");
      reflexivity || exact I.
Defined.

(** X2.  A response whose first character is neither a digit nor white
    space is read as 0 ahead and 0 behind, whatever digits come later. *)
Theorem getAheadBehindCount_ignores_late_digits
    (u : Utils) (dir : string) (branch : option string)
    (c : ascii) (rest : string) :
  is_digit c = false ->
  is_space c = false ->
  run u (revlist_command dir branch) = Resolved (String c rest) ->
  result (getAheadBehindCount u dir branch) = Resolved in_sync.
Proof.
  intros Hd Hs Hr.
  rewrite (getAheadBehindCount_resolved u dir branch Hr).
  pose proof (match_here_ahead_behind_runs "" "" "" (String c rest)
                eq_refl eq_refl eq_refl Hd Hs Hd) as Hm.
  cbn [append] in Hm.
  unfold js_match. rewrite (search_here _ _ Hm). reflexivity.
Qed.

Lemma getAheadBehindCount_ignores_late_digits_witness :
  result (getAheadBehindCount
            (Sample.with_counts "error 128: 3 5") "/work/app" None) =
    Resolved in_sync.
Proof.
  apply (@getAheadBehindCount_ignores_late_digits
           (Sample.with_counts "error 128: 3 5") "/work/app" None
           "e" "rror 128: 3 5");
    reflexivity.
Defined.

(** X3.  [getAheadBehindCount] never rejects and issues one request.
    [ahead] and [behind] are absent together, exactly when the query
    failed; after a query that answered, both are numbers, never NaN. *)
Theorem getAheadBehindCount_absent_iff_failed
    (u : Utils) (dir : string) (branch : option string) :
  exists d,
    getAheadBehindCount u dir branch =
      ([Exec (revlist_command dir branch)], Resolved d) /\
    (ahead d = None <-> is_rejected (run u (revlist_command dir branch)) = true) /\
    (behind d = None <-> is_rejected (run u (revlist_command dir branch)) = true) /\
    (is_rejected (run u (revlist_command dir branch)) = false ->
     exists x y, d = {| ahead := Some (Num x); behind := Some (Num y) |}).
Proof.
  destruct (run u (revlist_command dir branch)) as [resp|e] eqn:E.
  - rewrite (getAheadBehindCount_resolved u dir branch E).
    destruct (js_match_ahead_behind resp) as (w & g1 & g2 & -> & H1 & H2).
    eexists. split; [reflexivity|]. cbn.
    apply digits_have_a_value in H1, H2.
    destruct (Number_of_string g1) as [|x]; [discriminate H1|].
    destruct (Number_of_string g2) as [|y]; [discriminate H2|].
    repeat split; try discriminate. intros _. exists x, y. reflexivity.
  - rewrite (getAheadBehindCount_rejected u dir branch E).
    eexists. split; [reflexivity|]. cbn.
    repeat split; try reflexivity. discriminate.
Qed.

(** The theorem on a repository without upstream and on one in step
    with it. *)
Lemma getAheadBehindCount_absent_iff_failed_witness :
  (exists d,
      result (getAheadBehindCount Sample.bare "/work/new" None) = Resolved d /\
      ahead d = None /\ behind d = None) /\
  (exists d x y,
      result (getAheadBehindCount Sample.app "/work/app" None) = Resolved d /\
      d = {| ahead := Some (Num x); behind := Some (Num y) |}).
Proof.
  split.
  - destruct (getAheadBehindCount_absent_iff_failed Sample.bare "/work/new" None)
      as (d & Heq & Ha & Hb & _).
    exists d. rewrite Heq. split; [reflexivity|].
    split; [apply Ha | apply Hb]; reflexivity.
  - destruct (getAheadBehindCount_absent_iff_failed Sample.app "/work/app" None)
      as (d & Heq & _ & _ & H).
    destruct (H eq_refl) as (x & y & Hd).
    exists d, x, y. rewrite Heq. split; [reflexivity | exact Hd].
Defined.

(** *** The diff summary, again *)

Lemma summary_one_file_clauses (lead f i d : string) :
  every is_space lead = true ->
  is_number f = true -> is_number i = true -> is_number d = true ->
  clause re_files (summary_one_file lead f i d) = None /\
  clause re_insertions (summary_one_file lead f i d) = Some i /\
  clause re_deletions (summary_one_file lead f i d) = Some d.
Proof.
  intros Hl Hf Hi Hd.
  apply is_number_digits in Hf as [Hf0 Hf].
  apply is_number_digits in Hi as [Hi0 Hi].
  apply is_number_digits in Hd as [Hd0 Hd].
  unfold summary_one_file.
  change re_files with (counted " files").
  change re_insertions with (counted " insertions").
  change re_deletions with (counted " deletions").
  repeat split.
  - pass_text. pass_number. pass_text. pass_number. pass_text. pass_number.
    reflexivity.
  - pass_text. pass_number. pass_text.
    destruct i as [|a i]; [contradiction|].
    eapply search_counted_number; [assumption | exact eq_refl | reflexivity].
  - pass_text. pass_number. pass_text. pass_number. pass_text.
    destruct d as [|a d]; [contradiction|].
    eapply search_counted_number; [assumption | exact eq_refl | reflexivity].
Qed.

(** X4.  For a diff that touches one file and adds and removes several
    lines, git writes "file" in the singular and the two other clauses
    in the plural: the insertions and deletions are counted, yet
    [files] is 0 and the record is not dirty. *)
Theorem one_file_diff_is_counted_but_not_dirty
    (u : Utils) (dir lead f i d : string) (rest : list string) :
  every is_space lead = true ->
  is_number f = true -> is_number i = true -> is_number d = true ->
  result (tryCmd u (diff_command dir)) =
    Resolved (summary_one_file lead f i d :: rest) ->
  result (getModifiedCounts u dir) =
    Resolved {| files := Num 0;
                insertions := Number_of_string i;
                deletions := Number_of_string d |} /\
  (forall r,
      result (getGitStatusInfo u dir) = Resolved r ->
      isDirty r = false /\
      insertions (modifiedCount r) = Number_of_string i /\
      deletions (modifiedCount r) = Number_of_string d).
Proof.
  intros Hlead Hf Hi Hd Hl.
  pose proof (getModifiedCounts_eq u dir Hl) as Hm.
  rewrite counts_of_line in Hm. unfold clause_or_zero in Hm.
  destruct (summary_one_file_clauses lead f i d Hlead Hf Hi Hd)
    as (H1 & H2 & H3).
  rewrite H1, H2, H3 in Hm.
  split; [rewrite Hm; reflexivity|].
  intros r Hr.
  destruct (getGitStatusInfo_inv u dir Hr)
    as (b & s & dc & m & _ & _ & _ & Hm' & ->).
  rewrite Hm in Hm'. unfold result in Hm'. cbn [snd] in Hm'.
  injection Hm' as <-. repeat split.
Qed.

Lemma one_file_diff_is_counted_but_not_dirty_witness :
  exists r,
    result (getGitStatusInfo
              (Sample.with_summary (summary_one_file " " "1" "12" "3"))
              "/work/app") = Resolved r /\
    isDirty r = false /\
    insertions (modifiedCount r) = Num 12 /\
    deletions (modifiedCount r) = Num 3.
Proof.
  eexists. split; [reflexivity|].
  destruct (@one_file_diff_is_counted_but_not_dirty
              (Sample.with_summary (summary_one_file " " "1" "12" "3"))
              "/work/app" " " "1" "12" "3" []
              eq_refl eq_refl eq_refl eq_refl eq_refl) as [_ H].
  apply (H _ eq_refl).
Defined.

(** X5.  Whatever the diff query answers, the three counts that
    [getModifiedCounts] returns are numbers, never NaN, and they are read
    off the first line alone: another repository whose summary begins with
    the same line gets the same counts. *)
Theorem getModifiedCounts_numbers_of_first_line
    (u : Utils) (dir : string) (m : IModifiedCount) :
  result (getModifiedCounts u dir) = Resolved m ->
  (exists f i d, m = {| files := Num f; insertions := Num i; deletions := Num d |}) /\
  (forall u' dir' stats rest rest',
      result (tryCmd u (diff_command dir)) = Resolved (stats :: rest) ->
      result (tryCmd u' (diff_command dir')) = Resolved (stats :: rest') ->
      result (getModifiedCounts u' dir') = Resolved m).
Proof.
  intros H. split.
  - destruct (getModifiedCounts_numbers u dir H) as (Hf & Hi & Hd).
    destruct m as [[|f] [|i] [|d]]; try discriminate.
    exists f, i, d. reflexivity.
  - intros u' dir' stats rest rest' Hl Hl'.
    rewrite (getModifiedCounts_eq u dir Hl) in H.
    rewrite (getModifiedCounts_eq u' dir' Hl').
    unfold result in *. cbn [snd] in *. injection H as <-.
    rewrite !counts_of_line. reflexivity.
Qed.

(** The theorem on a summary of one line and on the same line followed
    by another. *)
Lemma getModifiedCounts_numbers_of_first_line_witness :
  (exists f i d,
      result (getModifiedCounts Sample.app "/work/app") =
      Resolved {| files := Num f; insertions := Num i; deletions := Num d |}) /\
  result (getModifiedCounts
            (Sample.with_summary
               (" 1 file changed, 1 insertion(+), 1 deletion(-)" ++ LF
                ++ " 9 files changed"))
            "/work/app") =
  result (getModifiedCounts Sample.app "/work/app").
Proof.
  destruct (@getModifiedCounts_numbers_of_first_line
              Sample.app "/work/app" _ eq_refl) as [(f & i & d & H) Hsame].
  split.
  - exists f, i, d. rewrite <- H. reflexivity.
  - apply (Hsame _ "/work/app"
             " 1 file changed, 1 insertion(+), 1 deletion(-)"
             [] [" 9 files changed"]); reflexivity.
Defined.

(** *** The repository detector, again *)

(** X6.  [isGitDirectory] never rejects and issues one request; it
    answers true exactly when the query succeeds and its trimmed output
    is the text "true". *)
Theorem isGitDirectory_true_iff (u : Utils) (dir : string) :
  exists b,
    isGitDirectory u dir = ([Exec (worktree_command dir)], Resolved b) /\
    (b = true <->
     exists resp,
       run u (worktree_command dir) = Resolved resp /\
       trimWhitespace u resp = "true").
Proof.
  exists (is_working_tree u dir). split; [apply isGitDirectory_eq|].
  unfold is_working_tree, isGitDirectory, cmd, try_catch, bind, result.
  fold (worktree_command dir).
  destruct (run u (worktree_command dir)) as [resp|e]; cbn.
  - split.
    + intros H. exists resp. split; [reflexivity|].
      apply String.eqb_eq, H.
    + intros (resp' & Hr & Ht). injection Hr as <-.
      apply String.eqb_eq, Ht.
  - split; [discriminate|]. intros (resp & Hr & _). discriminate Hr.
Qed.

(** The theorem on a working tree, and on a folder where git fails. *)
Lemma isGitDirectory_true_iff_witness :
  result (isGitDirectory Sample.app "/work/app") = Resolved true /\
  result (isGitDirectory Sample.folder "/work/b") = Resolved false.
Proof.
  split.
  - destruct (isGitDirectory_true_iff Sample.app "/work/app")
      as (b & Heq & Hb).
    rewrite Heq. unfold result. cbn [snd]. f_equal.
    apply Hb. exists ("true" ++ LF)%string. split; reflexivity.
  - destruct (isGitDirectory_true_iff Sample.folder "/work/b")
      as (b & Heq & Hb).
    rewrite Heq. unfold result. cbn [snd]. f_equal.
    destruct b; [|reflexivity].
    destruct (proj1 Hb eq_refl) as (resp & Hr & _). discriminate Hr.
Defined.

Lemma getGitDirectories_of_working_tree (u : Utils) (dir : string) :
  is_working_tree u dir = true ->
  getGitDirectories u dir = ([Exec (worktree_command dir)], Resolved [dir]).
Proof.
  intros H. unfold getGitDirectories. rewrite isGitDirectory_eq, H.
  reflexivity.
Qed.

Lemma getGitDirectories_cases (u : Utils) (root : string) :
  getGitDirectories u root =
  if is_working_tree u root
  then ([Exec (worktree_command root)], Resolved [root])
  else match listing u root with
       | Resolved dirs =>
           (Exec (worktree_command root) :: ReadDir root
              :: worktree_requests dirs,
            Resolved (filter (is_working_tree u) dirs))
       | Rejected e =>
           ([Exec (worktree_command root); ReadDir root], Rejected e)
       end.
Proof.
  unfold getGitDirectories. rewrite isGitDirectory_eq.
  destruct (is_working_tree u root); [reflexivity|].
  unfold bind at 1. unfold getDirectories.
  destruct (listing u root) as [dirs|e]; [|reflexivity].
  unfold bind at 1. rewrite filterAsync_isGitDirectory.
  unfold bind, ret. rewrite app_nil_r. reflexivity.
Qed.

(** X7.  Every path that [getGitDirectories] returns is a working tree,
    and discovering again from such a path returns that path alone. *)
Theorem getGitDirectories_returns_working_trees
    (u : Utils) (root : string) (found : list string) :
  result (getGitDirectories u root) = Resolved found ->
  forall p,
    In p found ->
    is_working_tree u p = true /\
    result (getGitDirectories u p) = Resolved [p].
Proof.
  intros H p Hp.
  assert (Hwt : is_working_tree u p = true).
  { rewrite getGitDirectories_cases in H.
    destruct (is_working_tree u root) eqn:Hroot.
    - unfold result in H. cbn [snd] in H. injection H as <-.
      destruct Hp as [<- | []]. exact Hroot.
    - destruct (listing u root) as [dirs|e]; [|discriminate H].
      unfold result in H. cbn [snd] in H. injection H as <-.
      apply filter_In in Hp as [_ Hp]. exact Hp. }
  split; [exact Hwt|].
  rewrite (getGitDirectories_of_working_tree u p Hwt). reflexivity.
Qed.

Lemma getGitDirectories_returns_working_trees_witness :
  is_working_tree Sample.folder "/work/c" = true /\
  result (getGitDirectories Sample.folder "/work/c") = Resolved ["/work/c"].
Proof.
  apply (@getGitDirectories_returns_working_trees
           Sample.folder "/work" ["/work/a"; "/work/c"] eq_refl).
  right. left. reflexivity.
Defined.

(** X8.  On a root that is not a working tree and whose directories
    cannot be listed, [getGitDirectories] is rejected with the error of
    the listing, having asked about no other directory. *)
Theorem getGitDirectories_listing_failure
    (u : Utils) (root e : string) :
  is_working_tree u root = false ->
  listing u root = Rejected e ->
  getGitDirectories u root =
  ([Exec (worktree_command root); ReadDir root], Rejected e).
Proof.
  intros Hwt Hl. rewrite getGitDirectories_cases, Hwt, Hl. reflexivity.
Qed.

Lemma getGitDirectories_listing_failure_witness :
  getGitDirectories Sample.app "/nowhere" =
  ([Exec (worktree_command "/nowhere"); ReadDir "/nowhere"],
   Rejected "ENOENT").
Proof.
  apply (@getGitDirectories_listing_failure Sample.app "/nowhere" "ENOENT");
    reflexivity.
Defined.

(** *** The status aggregator, again *)

Lemma getGitStatusInfo_cases (u : Utils) (dir : string) :
  exists s d m,
    result (getGitShortStatus u dir) = Resolved s /\
    result (getAheadBehindCount u dir None) = Resolved d /\
    result (getModifiedCounts u dir) = Resolved m /\
    getGitStatusInfo u dir =
    (four_requests dir,
     match run u (branch_command dir) with
     | Resolved resp =>
         Resolved (assemble u dir
                     (if truthy_string (trimWhitespace u resp)
                      then trimWhitespace u resp else "Detached Head")
                     s d m)
     | Rejected e => Rejected e
     end).
Proof.
  destruct (getAheadBehindCount_total u dir None) as [d Hd].
  destruct (getModifiedCounts_total u dir) as [m Hm].
  eexists _, d, m.
  split; [rewrite getGitShortStatus_eq; reflexivity|].
  split; [rewrite Hd; reflexivity|].
  split; [rewrite Hm; reflexivity|].
  destruct (run u (branch_command dir)) as [resp|e] eqn:Hb.
  - apply getGitStatusInfo_resolved.
    + rewrite getCurrentBranch_eq, Hb. reflexivity.
    + rewrite getGitShortStatus_eq. reflexivity.
    + rewrite Hd. reflexivity.
    + rewrite Hm. reflexivity.
  - apply getGitStatusInfo_rejected.
    rewrite getCurrentBranch_eq, Hb. reflexivity.
Qed.

(** X9.  [getGitStatusInfo] issues the same four commands in the same
    order whatever they answer: the branch, the short status, the
    ahead/behind counts and the diff summary of the path; a failing
    branch query does not hold back the three others, and nothing is
    listed. *)
Theorem getGitStatusInfo_always_four_requests (u : Utils) (dir : string) :
  fst (getGitStatusInfo u dir) =
  [ Exec (branch_command dir);
    Exec (status_command dir);
    Exec (revlist_command dir None);
    Exec (diff_command dir) ].
Proof.
  destruct (getGitStatusInfo_cases u dir) as (s & d & m & _ & _ & _ & ->).
  reflexivity.
Qed.

(** X10.  [getGitStatusInfo] is rejected exactly when the branch query
    fails, and then with the error of that query; the failure of any
    other query never rejects it. *)
Theorem getGitStatusInfo_rejected_iff (u : Utils) (dir e : string) :
  result (getGitStatusInfo u dir) = Rejected e <->
  run u (branch_command dir) = Rejected e.
Proof.
  destruct (getGitStatusInfo_cases u dir) as (s & d & m & _ & _ & _ & ->).
  unfold result. cbn [snd].
  destruct (run u (branch_command dir)) as [resp|e'].
  - split; discriminate.
  - split; intros H; injection H as ->; reflexivity.
Qed.

(** The theorem on a tree where only the branch query fails. *)
Lemma getGitStatusInfo_rejected_iff_witness :
  result (getGitStatusInfo Sample.old_git "/work/app") =
  Rejected "Command failed".
Proof.
  apply (getGitStatusInfo_rejected_iff Sample.old_git "/work/app"
           "Command failed").
  reflexivity.
Defined.

(** X11.  The branch of a record is never the empty text: it is the
    trimmed answer of the branch query, or "Detached Head" when that is
    empty; and the status of a record whose short-status query failed is
    the empty text. *)
Theorem record_branch_is_never_empty
    (u : Utils) (dir : string) (r : IGitStatus) :
  result (getGitStatusInfo u dir) = Resolved r ->
  branch r <> "" /\
  (exists resp,
      run u (branch_command dir) = Resolved resp /\
      (trimWhitespace u resp <> "" -> branch r = trimWhitespace u resp) /\
      (trimWhitespace u resp = "" -> branch r = "Detached Head")) /\
  (is_rejected (run u (status_command dir)) = true -> status r = "").
Proof.
  intros H.
  destruct (getGitStatusInfo_cases u dir) as (s & d & m & Hs & _ & _ & Heq).
  rewrite Heq in H. unfold result in H. cbn [snd] in H.
  destruct (run u (branch_command dir)) as [resp|e]; [|discriminate H].
  injection H as <-. cbn [assemble branch status].
  rewrite getGitShortStatus_eq in Hs. unfold result in Hs. cbn [snd] in Hs.
  injection Hs as <-.
  split; [|split].
  - destruct (trimWhitespace u resp); discriminate.
  - exists resp. split; [reflexivity|].
    destruct (trimWhitespace u resp) as [|a t].
    + split; [intros Hne; now destruct Hne | reflexivity].
    + split; [reflexivity | discriminate].
  - destruct (run u (status_command dir)); [discriminate | reflexivity].
Qed.

Lemma record_branch_is_never_empty_witness :
  exists r,
    result (getGitStatusInfo Sample.bare "/work/new") = Resolved r /\
    branch r = "Detached Head" /\ status r = "".
Proof.
  eexists. split; [reflexivity|].
  destruct (@record_branch_is_never_empty Sample.bare "/work/new" _ eq_refl)
    as (_ & (resp & Hr & _ & Hb) & Hs).
  split.
  - apply Hb. vm_compute in Hr. injection Hr as <-. reflexivity.
  - apply Hs. reflexivity.
Defined.

Lemma getAheadBehindCount_same (u u' : Utils) (dir : string)
    (branch : option string) :
  run u (revlist_command dir branch) = run u' (revlist_command dir branch) ->
  getAheadBehindCount u dir branch = getAheadBehindCount u' dir branch.
Proof.
  intros H.
  destruct (run u (revlist_command dir branch)) as [resp|e] eqn:E.
  - rewrite (getAheadBehindCount_resolved u dir branch E).
    rewrite (getAheadBehindCount_resolved u' dir branch (eq_sym H)).
    reflexivity.
  - rewrite (getAheadBehindCount_rejected u dir branch E).
    rewrite (getAheadBehindCount_rejected u' dir branch (eq_sym H)).
    reflexivity.
Qed.

(** X12.  The record of a path depends on nothing but the four queries
    on that path: two machines on which these four commands answer alike
    give the same requests and the same record, whatever else differs
    (other repositories, directory listings, other commands). *)
Theorem getGitStatusInfo_depends_on_its_queries
    (u u' : Utils) (dir : string) :
  same_queries u u' dir ->
  getGitStatusInfo u dir = getGitStatusInfo u' dir.
Proof.
  intros (Hb & Hs & Hr & Hd & Hlines & Hnl & Hws & Hname).
  unfold getGitStatusInfo.
  rewrite (getAheadBehindCount_same u u' dir None Hr).
  rewrite !getCurrentBranch_eq, !getGitShortStatus_eq, <- Hb, <- Hs, Hname.
  assert (Hm : getModifiedCounts u dir = getModifiedCounts u' dir).
  { rewrite (@getModifiedCounts_eq u dir
               match run u (diff_command dir) with
               | Resolved resp => lines u resp
               | Rejected _ => []
               end) by (rewrite tryCmd_eq; reflexivity).
    rewrite (@getModifiedCounts_eq u' dir
               match run u (diff_command dir) with
               | Resolved resp => lines u resp
               | Rejected _ => []
               end); [reflexivity|].
    rewrite tryCmd_eq, <- Hd.
    destruct (run u (diff_command dir)); [rewrite Hlines|]; reflexivity. }
  rewrite Hm.
  destruct (run u (branch_command dir)) as [resp|e];
    destruct (run u (status_command dir)) as [st|e'];
    rewrite <- ?Hws, <- ?Hnl; reflexivity.
Qed.

(** The theorem on a machine with one repository and on the same machine
    with a second repository and a listable parent directory. *)
Lemma getGitStatusInfo_depends_on_its_queries_witness :
  getGitStatusInfo Sample.app "/work/app" =
  getGitStatusInfo Sample.crowded "/work/app".
Proof.
  apply (@getGitStatusInfo_depends_on_its_queries
           Sample.app Sample.crowded "/work/app").
  repeat split.
Defined.

(** X13.  The flags of a record follow the text of the ahead/behind
    answer: with its two runs of digits read as [a] and [b], the record
    has unmerged commits exactly when [a] is positive and unsynced
    commits exactly when [a] or [b] is. *)
Theorem record_flags_follow_the_counts
    (u : Utils) (dir a ws b rest : string) (r : IGitStatus) :
  every is_digit a = true ->
  every is_space ws = true ->
  every is_digit b = true ->
  starts_outside Digit (ws ++ b ++ rest) ->
  starts_outside Space (b ++ rest) ->
  starts_outside Digit rest ->
  run u (revlist_command dir None) = Resolved (a ++ ws ++ b ++ rest)%string ->
  result (getGitStatusInfo u dir) = Resolved r ->
  diffCommitCount r =
    {| ahead := Some (Number_of_string a);
       behind := Some (Number_of_string b) |} /\
  hasUnmergedCommits r = gt_zero (Number_of_string a) /\
  hasUnsyncedCommits r =
    gt_zero (Number_of_string a) || gt_zero (Number_of_string b).
Proof.
  intros Ha Hws Hb H1 H2 H3 Hr H.
  destruct (getGitStatusInfo_inv u dir H)
    as (br & s & d & m & _ & _ & Hd & _ & ->).
  rewrite (getAheadBehindCount_resolved u dir None Hr) in Hd.
  unfold js_match in Hd.
  rewrite (search_here _ _
             (match_here_ahead_behind_runs a ws b rest Ha Hws Hb H1 H2 H3))
    in Hd.
  unfold result in Hd. cbn in Hd. injection Hd as <-.
  destruct (assemble_derivations u dir br s
              {| ahead := Some (Number_of_string a);
                 behind := Some (Number_of_string b) |} m)
    as (_ & D2 & D3 & _).
  split; [reflexivity|]. split.
  - rewrite D2. reflexivity.
  - rewrite D3, D2. reflexivity.
Qed.

(** The theorem on a clone that is two commits ahead and one behind. *)
Lemma record_flags_follow_the_counts_witness :
  exists r,
    result (getGitStatusInfo Sample.app "/work/app") = Resolved r /\
    diffCommitCount r = {| ahead := Some (Num 2); behind := Some (Num 1) |} /\
    hasUnmergedCommits r = true /\
    hasUnsyncedCommits r = true.
Proof.
  eexists. split; [reflexivity|].
  apply (@record_flags_follow_the_counts
           Sample.app "/work/app" "2" TAB "1" LF _
           eq_refl eq_refl eq_refl eq_refl eq_refl eq_refl eq_refl eq_refl).
Defined.

(** *** The default branches *)

Lemma string_app_assoc (a b c : string) :
  ((a ++ b) ++ c)%string = (a ++ b ++ c)%string.
Proof.
  induction a as [|x a IH]; cbn [append]; [reflexivity|].
  rewrite IH. reflexivity.
Qed.

Lemma string_app_length (a b : string) :
  String.length (a ++ b) = (String.length a + String.length b)%nat.
Proof.
  induction a as [|x a IH]; cbn [append String.length]; [reflexivity|].
  rewrite IH. reflexivity.
Qed.

Lemma strip_prefix_app (p s : string) : strip_prefix p (p ++ s) = Some s.
Proof.
  induction p as [|a p IH]; cbn [append strip_prefix].
  - destruct s; reflexivity.
  - rewrite Ascii.eqb_refl. exact IH.
Qed.

(** A prefix that fits inside the front part is a prefix of the front
    part. *)
Lemma strip_prefix_front (p y tail r : string) :
  strip_prefix p (y ++ tail) = Some r ->
  (String.length p <= String.length y)%nat ->
  exists r', strip_prefix p y = Some r'.
Proof.
  revert y. induction p as [|a p IH]; intros y H Hlen.
  - exists y. destruct y; reflexivity.
  - destruct y as [|b y]; [cbn in Hlen; lia|].
    cbn [append strip_prefix] in H |- *.
    destruct (Ascii.eqb a b); [|discriminate H].
    apply IH; [exact H | cbn in Hlen; lia].
Qed.

Lemma replace_first_absent (pat rep s : string) :
  occurs pat s = false -> replace_first pat rep s = s.
Proof.
  induction s as [|a s IH]; intros H.
  - cbn [replace_first]. rewrite (occurs_head _ _ H). reflexivity.
  - cbn [replace_first]. rewrite (occurs_head _ _ H).
    rewrite (IH (occurs_tail _ _ _ H)). reflexivity.
Qed.

Lemma replace_first_here (pat rep s rest : string) :
  strip_prefix pat s = Some rest ->
  replace_first pat rep s = (rep ++ rest)%string.
Proof.
  intros H. destruct s; cbn [replace_first]; rewrite H; reflexivity.
Qed.

(** The first occurrence of a pattern [body ++ c]: nothing of it starts
    in front of [pre]'s end. *)
Lemma replace_first_at (body : string) (c : ascii) (rep pre post : string) :
  occurs (body ++ String c "") (pre ++ body) = false ->
  replace_first (body ++ String c "") rep
    (pre ++ (body ++ String c "") ++ post) =
  (pre ++ rep ++ post)%string.
Proof.
  induction pre as [|a pre IH]; intros H.
  - cbn [append]. apply replace_first_here, strip_prefix_app.
  - cbn [append replace_first].
    destruct (strip_prefix (body ++ String c "")
                (String a (pre ++ (body ++ String c "") ++ post)))
      as [r|] eqn:E.
    + exfalso.
      change (String a (pre ++ (body ++ String c "") ++ post))
        with (String a pre ++ (body ++ String c "") ++ post)%string in E.
      rewrite string_app_assoc, <- (string_app_assoc (String a pre)) in E.
      apply strip_prefix_front in E as [r' E].
      * apply occurs_head in H. cbn [append] in H, E. rewrite H in E.
        discriminate E.
      * rewrite !string_app_length. cbn [String.length]. lia.
    + rewrite (IH (occurs_tail _ _ _ H)). reflexivity.
Qed.

Lemma getRemoteDefaultBranchName_eq (u : Utils) (dir : string) :
  getRemoteDefaultBranchName u dir =
  ([Exec (remote_head_command dir)],
   Resolved match run u (remote_head_command dir) with
            | Resolved resp =>
                replace_first "origin/" "" (trimWhitespace u resp)
            | Rejected _ => ""
            end).
Proof.
  unfold getRemoteDefaultBranchName, cmd, try_catch, bind.
  fold (remote_head_command dir).
  destruct (run u (remote_head_command dir)); reflexivity.
Qed.

Lemma getLocalDefaultBranchName_eq (u : Utils) (dir : string) :
  getLocalDefaultBranchName u dir =
  ([Exec (default_branch_command dir)],
   Resolved match run u (default_branch_command dir) with
            | Resolved resp => trimWhitespace u resp
            | Rejected _ => ""
            end).
Proof.
  unfold getLocalDefaultBranchName, cmd, try_catch, bind.
  fold (default_branch_command dir).
  destruct (run u (default_branch_command dir)); reflexivity.
Qed.

(** X14.  [getRemoteDefaultBranchName] removes the first "origin/" of
    the trimmed answer and nothing else: what stands before it is kept,
    and a second "origin/" after it stays.  In particular the answer
    "origin/" followed by a name gives that name. *)
Theorem getRemoteDefaultBranchName_drops_first_origin
    (u : Utils) (dir resp pre post : string) :
  run u (remote_head_command dir) = Resolved resp ->
  trimWhitespace u resp = (pre ++ "origin/" ++ post)%string ->
  occurs "origin/" (pre ++ "origin") = false ->
  result (getRemoteDefaultBranchName u dir) = Resolved (pre ++ post)%string.
Proof.
  intros Hr Ht Hfirst.
  rewrite getRemoteDefaultBranchName_eq, Hr, Ht.
  unfold result. cbn [snd]. f_equal.
  apply (replace_first_at "origin" "/" "" pre post Hfirst).
Qed.

(** The theorem on the usual answer, on an answer with two "origin/" and
    on one where "origin/" is not at the front. *)
Lemma getRemoteDefaultBranchName_drops_first_origin_witness :
  result (getRemoteDefaultBranchName Sample.cloned "/work/app") =
    Resolved "main" /\
  result (getRemoteDefaultBranchName
            (Sample.with_remote_head "origin/origin/next") "/work/app") =
    Resolved "origin/next" /\
  result (getRemoteDefaultBranchName
            (Sample.with_remote_head "fork-origin/main") "/work/app") =
    Resolved "fork-main".
Proof.
  split; [|split].
  - apply (@getRemoteDefaultBranchName_drops_first_origin
             Sample.cloned "/work/app" ("origin/main" ++ LF) "" "main");
      reflexivity.
  - apply (@getRemoteDefaultBranchName_drops_first_origin
             (Sample.with_remote_head "origin/origin/next") "/work/app"
             "origin/origin/next" "" "origin/next");
      reflexivity.
  - apply (@getRemoteDefaultBranchName_drops_first_origin
             (Sample.with_remote_head "fork-origin/main") "/work/app"
             "fork-origin/main" "fork-" "main");
      reflexivity.
Defined.

(** X15.  [getRemoteDefaultBranchName] never rejects: a failed query
    gives the empty text, and a trimmed answer in which "origin/" does
    not occur is returned as it is. *)
Theorem getRemoteDefaultBranchName_fallbacks (u : Utils) (dir : string) :
  (exists b,
      getRemoteDefaultBranchName u dir =
      ([Exec (remote_head_command dir)], Resolved b)) /\
  (forall e,
      run u (remote_head_command dir) = Rejected e ->
      result (getRemoteDefaultBranchName u dir) = Resolved "") /\
  (forall resp,
      run u (remote_head_command dir) = Resolved resp ->
      occurs "origin/" (trimWhitespace u resp) = false ->
      result (getRemoteDefaultBranchName u dir) =
      Resolved (trimWhitespace u resp)).
Proof.
  rewrite getRemoteDefaultBranchName_eq. unfold result. cbn [snd].
  split; [eexists; reflexivity|]. split.
  - intros e ->. reflexivity.
  - intros resp -> H. rewrite (replace_first_absent _ _ _ H). reflexivity.
Qed.

(** The theorem on a repository without remote and on a remote of
    another name. *)
Lemma getRemoteDefaultBranchName_fallbacks_witness :
  result (getRemoteDefaultBranchName Sample.bare "/work/new") = Resolved "" /\
  result (getRemoteDefaultBranchName
            (Sample.with_remote_head ("upstream/main" ++ LF)) "/work/app") =
    Resolved "upstream/main".
Proof.
  split.
  - destruct (getRemoteDefaultBranchName_fallbacks Sample.bare "/work/new")
      as (_ & H & _).
    apply (H "Command failed"). reflexivity.
  - destruct (getRemoteDefaultBranchName_fallbacks
                (Sample.with_remote_head ("upstream/main" ++ LF)) "/work/app")
      as (_ & _ & H).
    apply (H ("upstream/main" ++ LF)%string); reflexivity.
Defined.

(** X16.  [getLocalDefaultBranchName] never rejects, and the text it
    returns is empty exactly when the query failed or its answer trims to
    nothing: an unset [init.defaultBranch] and a failing git look alike. *)
Theorem getLocalDefaultBranchName_empty_iff (u : Utils) (dir : string) :
  exists b,
    getLocalDefaultBranchName u dir =
      ([Exec (default_branch_command dir)], Resolved b) /\
    (b = "" <->
     is_rejected (run u (default_branch_command dir)) = true \/
     exists resp,
       run u (default_branch_command dir) = Resolved resp /\
       trimWhitespace u resp = "").
Proof.
  rewrite getLocalDefaultBranchName_eq.
  eexists. split; [reflexivity|].
  destruct (run u (default_branch_command dir)) as [resp|e]; cbn.
  - split.
    + intros H. right. exists resp. split; [reflexivity | exact H].
    + intros [H | (resp' & Hr & Ht)]; [discriminate H|].
      injection Hr as <-. exact Ht.
  - split; [left; reflexivity | reflexivity].
Qed.

(** The theorem on an unset default branch and on a set one. *)
Lemma getLocalDefaultBranchName_empty_iff_witness :
  result (getLocalDefaultBranchName Sample.bare "/work/new") = Resolved "" /\
  result (getLocalDefaultBranchName Sample.cloned "/work/app") = Resolved "main".
Proof.
  split.
  - destruct (getLocalDefaultBranchName_empty_iff Sample.bare "/work/new")
      as (b & Heq & Hb).
    rewrite Heq. unfold result. cbn [snd]. f_equal.
    apply Hb. left. reflexivity.
  - destruct (getLocalDefaultBranchName_empty_iff Sample.cloned "/work/app")
      as (b & Heq & Hb).
    rewrite Heq in *. clear Hb.
    rewrite <- Heq. reflexivity.
Defined.

(** X17.  When the remote head answers "origin/" followed by what
    [init.defaultBranch] answers, the two default-branch functions return
    the same name. *)
Theorem default_branch_names_agree
    (u : Utils) (dir remote local : string) :
  run u (remote_head_command dir) = Resolved remote ->
  run u (default_branch_command dir) = Resolved local ->
  trimWhitespace u remote = ("origin/" ++ trimWhitespace u local)%string ->
  result (getRemoteDefaultBranchName u dir) =
  result (getLocalDefaultBranchName u dir).
Proof.
  intros Hr Hl Ht.
  rewrite getRemoteDefaultBranchName_eq, getLocalDefaultBranchName_eq, Hr, Hl, Ht.
  unfold result. cbn [snd].
  rewrite (replace_first_here "origin/" "" _ (strip_prefix_app "origin/" _)).
  reflexivity.
Qed.

Lemma default_branch_names_agree_witness :
  result (getRemoteDefaultBranchName Sample.cloned "/work/app") =
  result (getLocalDefaultBranchName Sample.cloned "/work/app").
Proof.
  apply (@default_branch_names_agree Sample.cloned "/work/app"
           ("origin/main" ++ LF) ("main" ++ LF));
    reflexivity.
Defined.
